(** * AI Endurance Coach: a shallow embedding of [backend/ai_endurance_coach.py]

    The Python module is a deterministic rule engine.  Its data classes become
    records, its string-valued enumerations stay strings (the code compares
    and dispatches on strings, and falls through on unknown ones), whole
    minutes and heart rates are [Z], and every quantity the code holds in a
    Python [float] is an exact rational [Q].  The list [adaptations], which
    the facade creates once and every helper appends to, is the state of a
    small state-and-error monad.  The errors are the [ValueError] of
    [PhysiologyEngine.heart_rate_zones] and the [StatisticsError] that
    [statistics.mean] raises on an empty sequence; the theorems show that
    the facade meets neither.

    Rationals idealise binary floating point: the model computes [x * 0.85]
    exactly where Python rounds the product to the nearest double.
    Comparisons against thresholds and [round] are modelled with Python's
    semantics (round half to even) on the exact value. *)

From Stdlib Require Import ZArith QArith Qround Qminmax Qabs.
From Stdlib Require Import List String Ascii Bool Lia Lqa.
From Stdlib Require Import DecimalString.
Import ListNotations.

Open Scope string_scope.
Open Scope Z_scope.

Infix "==s" := String.eqb (at level 70, no associativity).

(* ------------------------------------------------------------------ *)
(** ** Python built-ins used by the module *)

(** The exceptions that the module's code can meet: its own [ValueError]
    and the [StatisticsError] of [statistics.mean]. *)
Inductive exn : Type :=
  | ValueError (msg : string)
  | StatisticsError.

Module Py.

(** [round(x)] on a float: nearest integer, ties to the even one. *)
Definition round (x : Q) : Z :=
  let fl := Qfloor x in
  match (x - inject_Z fl ?= 1 # 2)%Q with
  | Lt => fl
  | Gt => fl + 1
  | Eq => if Z.even fl then fl else fl + 1
  end.

(** [round(x, 1)] and [round(x, 2)]: the same rule on tenths and
    hundredths. *)
Definition round_nd (x : Q) (ndigits : nat) : Q :=
  let scale := Z.pow 10 (Z.of_nat ndigits) in
  (inject_Z (round (x * inject_Z scale)) / inject_Z scale)%Q.

(** [max(a, b)] returns [a] unless [b > a]; likewise [min]. *)
Definition max (a b : Q) : Q := if Qlt_le_dec a b then b else a.
Definition min (a b : Q) : Q := if Qlt_le_dec b a then b else a.

(** [statistics.mean]: raises [StatisticsError] on an empty sequence. *)
Definition fsum (xs : list Q) : Q := fold_right Qplus 0%Q xs.

Definition mean (xs : list Q) : exn + Q :=
  match xs with
  | [] => inl StatisticsError
  | _ => inr (fsum xs / inject_Z (Z.of_nat (List.length xs)))%Q
  end.

(** [xs[-n:]] for a positive literal [n]: the slice starts at index
    [max(len(xs) - n, 0)]. *)
Definition slice_last {A} (n : nat) (xs : list A) : list A :=
  skipn (List.length xs - n) xs.

(** [str(n)] for an integer, as used by f-strings. *)
Definition str (n : Z) : string := NilZero.string_of_int (Z.to_int n).

(** Truthiness of an [Optional[int]]: [None] and [0] are falsy. *)
Definition truthy (o : option Z) : bool :=
  match o with
  | None => false
  | Some n => negb (n =? 0)
  end.

(** [o or d] on an [Optional[int]]. *)
Definition or_default (o : option Z) (d : Z) : Z :=
  match o with
  | None => d
  | Some n => if n =? 0 then d else n
  end.

(** [s in {...}] for a set literal of strings. *)
Definition in_set (s : string) (xs : list string) : bool :=
  existsb (String.eqb s) xs.

End Py.

(** Python floats with the one non-finite value the module constructs,
    [float("inf")]. *)
Inductive pyfloat : Type :=
  | Finite (q : Q)
  | Inf.

Definition pyfloat_lt (a b : pyfloat) : bool :=
  match a, b with
  | Finite x, Finite y => if Qlt_le_dec x y then true else false
  | Finite _, Inf => true
  | Inf, _ => false
  end.

Definition pyfloat_le (a b : pyfloat) : bool :=
  match a, b with
  | Finite x, Finite y => Qle_bool x y
  | _, Inf => true
  | Inf, Finite _ => false
  end.

(* ------------------------------------------------------------------ *)
(** ** Tunable constants *)

Definition PRE_RUN_CARBS_EASY_G_PER_KG : Q := 5 # 10.
Definition PRE_RUN_CARBS_LONG_OR_HARD_G_PER_KG : Q := 1.

Record IntraRule : Type := mkIntraRule {
  min_minutes : Q;
  max_minutes : Q;
  carbs_g_per_hour : Q;
  fluids : string;
  electrolytes_mg_per_l : Z
}.

Definition INTRA_CARB_RULES : list IntraRule :=
  [ mkIntraRule 0 59 0 "Water" 300;
    mkIntraRule 60 89 30 "Water + electrolytes" 400;
    mkIntraRule 90 180 60 "Carb mix (glucose/fructose) + electrolytes" 500;
    mkIntraRule 181 300 90 "High-carb mix + electrolytes" 600 ].

Definition POST_RUN_PROTEIN_G_PER_KG : Q := 27 # 100.

(** The dictionaries below are only ever indexed with the literal keys
    that they hold, so each becomes a function whose last branch is the
    last key. *)

Definition POST_RUN_CARB_G_PER_KG (band : string) : Q :=
  if band ==s "short" then 6 # 10
  else if band ==s "medium" then 8 # 10
  else 1.

Definition HYDRATION_ML_PER_HR_RANGE : Z * Z := (500, 750).
Definition HYDRATION_SODIUM_MG_PER_L_RANGE : Z * Z := (400, 800).

Definition READINESS_TIER_BOUNDS (tier : string) : Q :=
  if tier ==s "high" then 75
  else if tier ==s "moderate" then 50
  else 0.

Definition MASTERS_AGE : Z := 40.

Definition ACWR_THRESHOLDS (key : string) : Q :=
  if key ==s "under" then 8 # 10
  else if key ==s "optimal_low" then 8 # 10
  else if key ==s "optimal_high" then 13 # 10
  else 15 # 10.

(** [INTENSITY_FACTORS.get(zone, 1.0)]. *)
Definition INTENSITY_FACTORS_get (zone : string) : Q :=
  if zone ==s "Z1" then 1
  else if zone ==s "Z2" then 13 # 10
  else if zone ==s "Z3" then 16 # 10
  else if zone ==s "Z4" then 19 # 10
  else if zone ==s "Z5" then 23 # 10
  else 1.

Definition clamp (value lower upper : Q) : Q :=
  Py.max lower (Py.min upper value).

(* ------------------------------------------------------------------ *)
(** ** Data models *)

Module UserProfile.
Record t : Type := mk {
  user_id : string;
  age : Z;
  sex : option string;
  weight_kg : Q;
  height_cm : option Q;
  max_hr : option Z;
  resting_hr : option Z;
  training_level : string;
  injury_flag : bool;
  goal_event : option string;
  goal_time_minutes : option Z
}.
End UserProfile.

Module MacrocycleContext.
Record t : Type := mk {
  phase : string;
  weeks_to_event : Z;
  goal_event : string;
  target_weekly_distance_km : option Q;
  surface_focus : option string
}.
End MacrocycleContext.

Module DailyReadinessInputs.
Record t : Type := mk {
  sleep_hours : Q;
  sleep_quality : Z;
  soreness : Z;
  stress : Z;
  mental_energy : Z;
  resting_hr : option Z;
  hrv_change_ms : option Q
}.
End DailyReadinessInputs.

Module MicrocycleDayContext.
Record t : Type := mk {
  day_index : Z;
  day_name : string;
  template : string;
  availability_minutes : Z;
  readiness_inputs : DailyReadinessInputs.t;
  planned_distance_km : option Q;
  load_history : list Q;
  environment : option string
}.
End MicrocycleDayContext.

(** The dictionary of heart-rate bands, keyed by ["Z1"] .. ["Z5"]. *)
Record HrZones : Type := mkHrZones {
  Z1 : Z * Z;
  Z2 : Z * Z;
  Z3 : Z * Z;
  Z4 : Z * Z;
  Z5 : Z * Z
}.

(** A segment dictionary of a session. *)
Module Segment.
Record t : Type := mk {
  label : string;
  duration_minutes : Z;
  target_zone : string;
  hr_range_bpm : Z * Z;
  notes : option string
}.
End Segment.

(** The session dictionary.  The builders leave ["template"] and
    ["estimated_load"] unset; [_build_training_session] fills them in. *)
Module Session.
Record t : Type := mk {
  type : string;
  duration_minutes : Z;
  segments : list Segment.t;
  primary_zone : string;
  notes : string;
  template : option string;
  estimated_load : option Q
}.

Definition set_duration_minutes (d : Z) (s : t) : t :=
  mk (type s) d (segments s) (primary_zone s) (notes s) (template s)
     (estimated_load s).
Definition set_segments (segs : list Segment.t) (s : t) : t :=
  mk (type s) (duration_minutes s) segs (primary_zone s) (notes s)
     (template s) (estimated_load s).
Definition set_template (tpl : string) (s : t) : t :=
  mk (type s) (duration_minutes s) (segments s) (primary_zone s) (notes s)
     (Some tpl) (estimated_load s).
Definition set_estimated_load (l : Q) (s : t) : t :=
  mk (type s) (duration_minutes s) (segments s) (primary_zone s) (notes s)
     (template s) (Some l).
End Session.

(* ------------------------------------------------------------------ *)
(** ** The effect of the facade: an accumulating list and one exception *)

(** A computation reads and extends [adaptations] and either raises or
    returns. *)
Definition M (A : Type) : Type := list string -> exn + (A * list string).

Definition ret {A} (a : A) : M A := fun ads => inr (a, ads).

Definition bind {A B} (m : M A) (k : A -> M B) : M B :=
  fun ads =>
    match m ads with
    | inl e => inl e
    | inr (a, ads') => k a ads'
    end.

Definition raise {A} (e : exn) : M A := fun _ => inl e.

(** [adaptations.append(note)]. *)
Definition append_adaptation (note : string) : M unit :=
  fun ads => inr (tt, (ads ++ [note])%list).

Definition when (b : bool) (m : M unit) : M unit :=
  if b then m else ret tt.

(** A call that may raise but does not touch [adaptations]. *)
Definition lift {A} (r : exn + A) : M A :=
  fun ads =>
    match r with
    | inl e => inl e
    | inr a => inr (a, ads)
    end.

Declare Scope coach_scope.
Delimit Scope coach_scope with coach.
Notation "x <- m ;; k" := (bind m (fun x => k))
  (at level 61, m at next level, right associativity) : coach_scope.
Notation "m ;;; k" := (bind m (fun _ => k))
  (at level 61, right associativity) : coach_scope.
Open Scope coach_scope.

(* ------------------------------------------------------------------ *)
(** ** PhysiologyEngine *)

Module PhysiologyEngine.

(** The inner helper [zone(low, high)]. *)
Definition zone (rhr reserve : Z) (low high : Q) : Z * Z :=
  (Py.round (inject_Z rhr + inject_Z reserve * low),
   Py.round (inject_Z rhr + inject_Z reserve * high)).

(** [heart_rate_zones(max_hr, resting_hr)].  The annotation says [int],
    the guard [not max_hr] also covers [None]. *)
Definition heart_rate_zones (max_hr resting_hr : option Z) : exn + HrZones :=
  if negb (Py.truthy max_hr) then
    inl (ValueError "max_hr is required to derive zones")
  else
    let mhr := match max_hr with Some m => m | None => 0 end in
    let rhr := Py.or_default resting_hr 60 in
    let reserve := Z.max (mhr - rhr) 1 in
    inr (mkHrZones
           (zone rhr reserve (55 # 100) (72 # 100))
           (zone rhr reserve (72 # 100) (82 # 100))
           (zone rhr reserve (82 # 100) (89 # 100))
           (zone rhr reserve (89 # 100) (95 # 100))
           (zone rhr reserve (95 # 100) 1)).

End PhysiologyEngine.

(* ------------------------------------------------------------------ *)
(** ** LoadManager *)

Module LoadReport.
Record t : Type := mk {
  acute_load : Q;
  chronic_load : Q;
  acwr : pyfloat;
  zone : string;
  recommendation : string
}.
End LoadReport.

Module LoadManager.

(** [compute_acute_chronic].  The model keeps the exception of [mean];
    the theorems show that it is never raised here. *)
Definition compute_acute_chronic (load_history : list Q) : exn + (Q * Q) :=
  match load_history with
  | [] => inr (0%Q, 0%Q)
  | _ =>
      let acute_window := Py.slice_last 7 load_history in
      let chronic_window :=
        if (28 <=? List.length load_history)%nat
        then Py.slice_last 28 load_history
        else load_history in
      match Py.mean acute_window with
      | inl e => inl e
      | inr acute_load =>
          match Py.mean chronic_window with
          | inl e => inl e
          | inr chronic_load => inr (acute_load, chronic_load)
          end
      end
  end.

Definition compute_acwr (acute_load chronic_load : Q) : pyfloat :=
  if Qle_bool chronic_load 0 then
    if Qlt_le_dec 0 acute_load then Inf else Finite 0
  else Finite (acute_load / chronic_load).

Definition classify_acwr (acwr : pyfloat) : string :=
  if pyfloat_lt acwr (Finite (ACWR_THRESHOLDS "under")) then "underload"
  else if pyfloat_le (Finite (ACWR_THRESHOLDS "optimal_low")) acwr
          && pyfloat_le acwr (Finite (ACWR_THRESHOLDS "optimal_high"))
       then "optimal"
  else if pyfloat_lt (Finite (ACWR_THRESHOLDS "optimal_high")) acwr
          && pyfloat_le acwr (Finite (ACWR_THRESHOLDS "elevated_high"))
       then "elevated"
  else "high".

Definition round_acwr (acwr : pyfloat) : pyfloat :=
  match acwr with
  | Finite q => Finite (Py.round_nd q 2)
  | Inf => Inf
  end.

Definition load_report (load_history : list Q) : exn + LoadReport.t :=
  match compute_acute_chronic load_history with
  | inl e => inl e
  | inr (acute, chronic) =>
      let acwr := compute_acwr acute chronic in
      let zone := classify_acwr acwr in
      let recommendation :=
        if zone ==s "underload" then
          "Increase load gradually (5-10%) to avoid detraining."
        else if zone ==s "elevated" then
          "Hold or slightly reduce load; avoid stacking hard days."
        else if zone ==s "high" then
          "Prioritize recovery; cap intensity until ACWR is back in range."
        else "Maintain progressive overload." in
      inr (LoadReport.mk (Py.round_nd acute 2) (Py.round_nd chronic 2)
             (round_acwr acwr) zone recommendation)
  end.

End LoadManager.

(* ------------------------------------------------------------------ *)
(** ** NutritionEngine *)

Module PreRun.
Record t : Type := mk { carbs_g : Q; notes : string }.
End PreRun.

Module IntraRun.
Record t : Type := mk {
  carbs_g_per_hour : Q;
  fluids : string;
  electrolytes_mg_per_l : Z;
  notes : string
}.
End IntraRun.

Module PostRun.
Record t : Type := mk { protein_g : Q; carbs_g : Q; notes : string }.
End PostRun.

Module Hydration.
Record t : Type := mk {
  fluids_ml_per_hour : string;
  sodium_mg_per_l : string;
  notes : string
}.
End Hydration.

Module NutritionPlan.
Record t : Type := mk {
  pre_run : PreRun.t;
  intra_run : IntraRun.t;
  post_run : PostRun.t;
  hydration : Hydration.t
}.
End NutritionPlan.

Module NutritionEngine.

(** The test of the loop over [INTRA_CARB_RULES]. *)
Definition in_band (duration : Q) (candidate : IntraRule) : bool :=
  Qle_bool (min_minutes candidate) duration
  && Qle_bool duration (max_minutes candidate).

(** [rule = INTRA_CARB_RULES[0]], then the first candidate whose band
    holds the duration, if any. *)
Definition select_rule (duration : Q) : IntraRule :=
  let rule := hd (mkIntraRule 0 0 0 "" 0) INTRA_CARB_RULES in
  match find (in_band duration) INTRA_CARB_RULES with
  | Some candidate => candidate
  | None => rule
  end.

Definition _intra_fueling (duration : Q) (intensity_zone : string)
  : IntraRun.t :=
  let rule := select_rule duration in
  let carbs := carbs_g_per_hour rule in
  let carbs :=
    if Py.in_set intensity_zone ["Z4"; "Z5"] && Qle_bool 90 duration
    then Py.max carbs 70
    else carbs in
  IntraRun.mk carbs (fluids rule) (electrolytes_mg_per_l rule)
    (if Qeq_bool carbs 0
     then "Water as thirst dictates; add electrolytes in heat."
     else "Use glucose+fructose mix for >60 g/h; sip steadily every 10-15 min.").

Definition _post_fueling (duration weight_kg : Q) : PostRun.t :=
  let protein := Py.round_nd (weight_kg * POST_RUN_PROTEIN_G_PER_KG) 1 in
  let carb_rate :=
    if Qle_bool 90 duration then POST_RUN_CARB_G_PER_KG "long"
    else if Qle_bool 46 duration then POST_RUN_CARB_G_PER_KG "medium"
    else POST_RUN_CARB_G_PER_KG "short" in
  let carbs := Py.round_nd (weight_kg * carb_rate) 1 in
  PostRun.mk protein carbs
    "Refuel within 60 min with carbs + 20-30 g protein; add a second carb meal if double day.".

Definition _hydration_guidance (duration : Q) (intensity_zone : string)
  : Hydration.t :=
  let '(ml_low, ml_high) := HYDRATION_ML_PER_HR_RANGE in
  let '(sodium_low, sodium_high) := HYDRATION_SODIUM_MG_PER_L_RANGE in
  let needs_electrolytes :=
    Qle_bool 60 duration || Py.in_set intensity_zone ["Z3"; "Z4"; "Z5"] in
  Hydration.mk
    (Py.str ml_low ++ "-" ++ Py.str ml_high)%string
    (if needs_electrolytes
     then (Py.str sodium_low ++ "-" ++ Py.str sodium_high)%string
     else "Lightly salted foods suffice for short easy days.")
    "Use thirst as a guide; adjust upward in heat or humidity.".

Definition build_plan (session : Session.t) (user : UserProfile.t)
  : NutritionPlan.t :=
  let duration := inject_Z (Session.duration_minutes session) in
  let template :=
    match Session.template session with
    | Some tpl => tpl
    | None => "Recovery"
    end in
  let intensity_zone := Session.primary_zone session in
  let is_long_or_hard :=
    Py.in_set template
      ["Long Run"; "Threshold"; "VO2_Intervals"; "Double_Threshold"] in
  let pre_carb_g_per_kg :=
    if is_long_or_hard then PRE_RUN_CARBS_LONG_OR_HARD_G_PER_KG
    else PRE_RUN_CARBS_EASY_G_PER_KG in
  let pre_run_carbs :=
    Py.round_nd (UserProfile.weight_kg user * pre_carb_g_per_kg) 1 in
  let intra_plan := _intra_fueling duration intensity_zone in
  let post_plan := _post_fueling duration (UserProfile.weight_kg user) in
  NutritionPlan.mk
    (PreRun.mk pre_run_carbs
       (if is_long_or_hard
        then "Aim for low-fiber carbs 2-3h pre-run; add 500 ml fluids."
        else "Small carb snack 30-60 min pre-run."))
    intra_plan post_plan
    (_hydration_guidance duration intensity_zone).

End NutritionEngine.

(* ------------------------------------------------------------------ *)
(** ** RecoveryEngine *)

Module RecoveryProtocol.
Record t : Type := mk { actions : list string; monitoring : list string }.
End RecoveryProtocol.

Module RecoveryEngine.

Definition readiness_score (inputs : DailyReadinessInputs.t)
    (user : UserProfile.t) (load_zone : string) : Q * string :=
  let score := 100%Q in
  let score :=
    (score - Py.max 0 (((75 # 10) - DailyReadinessInputs.sleep_hours inputs) * 5))%Q in
  let score :=
    (score + inject_Z (DailyReadinessInputs.sleep_quality inputs - 7) * 3)%Q in
  let score :=
    (score - inject_Z (DailyReadinessInputs.soreness inputs - 3) * 4)%Q in
  let score :=
    (score - inject_Z (DailyReadinessInputs.stress inputs - 3) * 3)%Q in
  let score :=
    (score + inject_Z (DailyReadinessInputs.mental_energy inputs - 5) * (25 # 10))%Q in
  let score :=
    if Py.truthy (DailyReadinessInputs.resting_hr inputs)
       && Py.truthy (UserProfile.resting_hr user)
    then
      let delta :=
        Py.or_default (DailyReadinessInputs.resting_hr inputs) 0
        - Py.or_default (UserProfile.resting_hr user) 0 in
      if 0 <? delta then (score - inject_Z delta * (12 # 10))%Q else score
    else score in
  let score :=
    match DailyReadinessInputs.hrv_change_ms inputs with
    | Some hrv =>
        if Qlt_le_dec hrv 0 then (score + hrv * (6 # 10))%Q else score
    | None => score
    end in
  let score :=
    if Py.in_set load_zone ["elevated"; "high"] then (score - 8)%Q
    else score in
  let score :=
    if UserProfile.injury_flag user then (score - 10)%Q else score in
  let score := clamp score 0 100 in
  let tier :=
    if Qle_bool (READINESS_TIER_BOUNDS "high") score then "high"
    else if Qle_bool (READINESS_TIER_BOUNDS "moderate") score then "moderate"
    else "low" in
  (score, tier).

Definition protocol (readiness_tier acwr_zone : string)
    (user : UserProfile.t) : RecoveryProtocol.t :=
  let actions :=
    ["7-9h sleep, consistent bedtime";
     "Protein with every meal; colorful carbs and healthy fats"] in
  let monitoring :=
    ["Subjective check-in (mood/soreness)"; "Resting HR on waking"] in
  let '(actions, monitoring) :=
    if (readiness_tier ==s "low") || Py.in_set acwr_zone ["high"] then
      ((actions ++ ["Active recovery: 20-40 min easy walk/ride";
                    "10-15 min mobility + light band work";
                    "Early night; reduce stimulants"])%list,
       (monitoring ++ ["Delay intensity until readiness improves"])%list)
    else if (readiness_tier ==s "moderate") || (acwr_zone ==s "elevated") then
      ((actions ++ ["Keep intensity at or below Z2 today";
                    "Add 5-10 min of post-run mobility";
                    "Extra 20-30 g carbs in evening meal"])%list,
       monitoring)
    else
      ((actions ++ ["Proceed with planned intensity; keep warmup thorough";
                    "Short strides to maintain neuromuscular readiness"])%list,
       monitoring) in
  let actions :=
    if MASTERS_AGE <=? UserProfile.age user then
      (actions ++ ["Include extra calf/hip stability 2-3x/week; extend cooldown by 5 min"])%list
    else actions in
  let actions :=
    if UserProfile.training_level user ==s "novice" then
      (actions ++ ["Prefer soft surfaces; focus on relaxed form cues"])%list
    else actions in
  let actions :=
    if UserProfile.injury_flag user then
      (actions ++ ["Prioritize pain-free movement; skip plyometrics and downhill stress"])%list
    else actions in
  RecoveryProtocol.mk actions monitoring.

End RecoveryEngine.

(* ------------------------------------------------------------------ *)
(** ** AICoach facade *)

Module DailyPlan.
Record t : Type := mk {
  day_index : Z;
  day_name : string;
  template_requested : string;
  template_final : string;
  training_session : Session.t;
  nutrition_engine : NutritionPlan.t;
  recovery_protocol : RecoveryProtocol.t;
  load_risk : LoadReport.t;
  readiness_score : Q;
  readiness_tier : string;
  adaptations : list string;
  meta_user_profile : UserProfile.t;
  meta_macrocycle_context : MacrocycleContext.t
}.
End DailyPlan.

Module AICoach.

Definition _safe_zones (user : UserProfile.t) : M HrZones :=
  when (negb (Py.truthy (UserProfile.max_hr user)))
    (append_adaptation "Missing max_hr; defaulting to 190 bpm for zone calc.") ;;;
  let max_hr := Py.or_default (UserProfile.max_hr user) 190 in
  lift (PhysiologyEngine.heart_rate_zones (Some max_hr)
          (UserProfile.resting_hr user)).

Definition _adapt_template (template readiness_tier acwr_zone : string)
    (user : UserProfile.t) : M string :=
  let adjusted := template in
  adjusted <-
    (if UserProfile.injury_flag user
        && negb (Py.in_set template ["Rest"; "Recovery"])
     then append_adaptation "Injury flag set; downgrading to Recovery." ;;;
          ret "Recovery"
     else ret adjusted) ;;
  if readiness_tier ==s "low" then
    adjusted <-
      (if negb (Py.in_set template ["Rest"; "Recovery"])
       then append_adaptation
              "Low readiness detected; replaced hard session with Recovery." ;;;
            ret "Recovery"
       else ret adjusted) ;;
    if Py.in_set acwr_zone ["high"]
    then append_adaptation "High ACWR + low readiness; prescribing Rest." ;;;
         ret "Rest"
    else ret adjusted
  else if Py.in_set acwr_zone ["high"] then
    if Py.in_set template ["VO2_Intervals"; "Double_Threshold"]
    then append_adaptation
           "High ACWR; downgrading from very hard to Threshold." ;;;
         ret "Threshold"
    else ret adjusted
  else if Py.in_set acwr_zone ["elevated"]
          && Py.in_set template ["VO2_Intervals"; "Double_Threshold"]
  then append_adaptation "Elevated ACWR; shifting to Threshold focus." ;;;
       ret "Threshold"
  else ret adjusted.

(** *** Session builders *)

Definition _rest_day (_ : MicrocycleDayContext.t) (_ : MacrocycleContext.t)
    (_ : HrZones) : Session.t :=
  Session.mk "Rest" 0 [] "Z1"
    "Full rest or light 20-30 min walk if desired." None None.

Definition _recovery_run (day : MicrocycleDayContext.t)
    (_ : MacrocycleContext.t) (hr_zones : HrZones) : Session.t :=
  let duration :=
    Z.max 20 (Z.min (MicrocycleDayContext.availability_minutes day) 40) in
  Session.mk "Recovery" duration
    [Segment.mk "Easy" duration "Z1" (Z1 hr_zones) None]
    "Z1"
    "Keep cadence relaxed; nasal breathing. Optional 3-4x10s strides if feeling fresh."
    None None.

Definition _long_run (day : MicrocycleDayContext.t)
    (macrocycle : MacrocycleContext.t) (hr_zones : HrZones) : Session.t :=
  let target_duration :=
    Z.min (Z.max (MicrocycleDayContext.availability_minutes day) 75) 120 in
  let warmup := 10 in
  let cooldown := 10 in
  let surge_block := 8 in
  let steady := Z.max (target_duration - (warmup + cooldown + surge_block)) 40 in
  let total_duration := warmup + steady + surge_block + cooldown in
  let '(steady, total_duration) :=
    if target_duration <? total_duration then
      let surplus := total_duration - target_duration in
      let steady := Z.max 40 (steady - surplus) in
      (steady, warmup + steady + surge_block + cooldown)
    else (steady, total_duration) in
  let segments :=
    [Segment.mk "Warm-up" warmup "Z1" (Z1 hr_zones) None;
     Segment.mk "Steady" steady "Z2" (Z2 hr_zones) None] in
  let segments :=
    if 0 <? surge_block then
      (segments ++ [Segment.mk "Optional Surges" surge_block "Z3"
                      (Z3 hr_zones)
                      (Some "4x2 min uptempo with 3 min easy jogs")])%list
    else segments in
  let segments :=
    (segments ++ [Segment.mk "Cool-down" cooldown "Z1" (Z1 hr_zones) None])%list in
  Session.mk "Endurance" total_duration segments "Z2"
    ("Macrocycle phase: " ++ MacrocycleContext.phase macrocycle
     ++ ". Keep fueling steady; avoid racing the long run.")%string
    None None.

(** [range(n)] as the integers [0 .. n-1]. *)
Definition range (n : Z) : list Z := map Z.of_nat (seq 0 (Z.to_nat n)).

(** The loop [for rep, rec in zip(intervals, recoveries + [None])] that
    appends each repetition and, when there is one, its recovery jog. *)
Definition interleave (intervals recoveries : list Segment.t)
  : list Segment.t :=
  flat_map
    (fun '(rep, rec) =>
       match rec with
       | Some r => [rep; r]
       | None => [rep]
       end)
    (combine intervals (map Some recoveries ++ [None])%list).

Definition _threshold_run (day : MicrocycleDayContext.t)
    (macrocycle : MacrocycleContext.t) (hr_zones : HrZones) : Session.t :=
  let reps := 3 in
  let rep_duration := 10 in
  let recovery := 3 in
  let total_main := reps * rep_duration + (reps - 1) * recovery in
  let total_duration := 15 + total_main + 10 in
  let '(reps, rep_duration, total_duration) :=
    if MicrocycleDayContext.availability_minutes day <? total_duration then
      let factor :=
        (inject_Z (MicrocycleDayContext.availability_minutes day)
         / inject_Z total_duration)%Q in
      let rep_duration := Z.max 8 (Py.round (inject_Z rep_duration * factor)) in
      let reps := Z.max 2 (reps - 1) in
      let total_main := reps * rep_duration + (reps - 1) * recovery in
      (reps, rep_duration, 15 + total_main + 10)
    else (reps, rep_duration, total_duration) in
  let intervals :=
    map (fun i => Segment.mk ("Threshold rep " ++ Py.str (i + 1))%string
                    rep_duration "Z3" (Z3 hr_zones) None)
        (range reps) in
  let recoveries :=
    map (fun i => Segment.mk ("Recovery jog " ++ Py.str (i + 1))%string
                    recovery "Z1" (Z1 hr_zones) None)
        (range (reps - 1)) in
  let segments := [Segment.mk "Warm-up" 15 "Z1" (Z1 hr_zones) None] in
  let segments := (segments ++ interleave intervals recoveries)%list in
  let segments :=
    (segments ++ [Segment.mk "Cool-down" 10 "Z1" (Z1 hr_zones) None])%list in
  Session.mk "Lactate Threshold" total_duration segments "Z3"
    ("Stay controlled; avoid drifting into VO2. Phase: "
     ++ MacrocycleContext.phase macrocycle ++ ".")%string
    None None.

Definition _vo2_intervals (day : MicrocycleDayContext.t)
    (macrocycle : MacrocycleContext.t) (hr_zones : HrZones) : Session.t :=
  let reps := 5 in
  let rep_duration := 3 in
  let recovery := 2 in
  let total_main := reps * rep_duration + (reps - 1) * recovery in
  let total_duration := 15 + total_main + 10 in
  let '(reps, total_duration) :=
    if MicrocycleDayContext.availability_minutes day <? total_duration then
      let reps := Z.max 4 (reps - 1) in
      let total_main := reps * rep_duration + (reps - 1) * recovery in
      (reps, 15 + total_main + 10)
    else (reps, total_duration) in
  let intervals :=
    map (fun i => Segment.mk ("VO2 rep " ++ Py.str (i + 1))%string
                    rep_duration "Z4" (Z4 hr_zones) None)
        (range reps) in
  let recoveries :=
    map (fun i => Segment.mk ("Recovery jog " ++ Py.str (i + 1))%string
                    recovery "Z1" (Z1 hr_zones) None)
        (range (reps - 1)) in
  let segments := [Segment.mk "Warm-up" 15 "Z1" (Z1 hr_zones) None] in
  let segments := (segments ++ interleave intervals recoveries)%list in
  let segments :=
    (segments ++ [Segment.mk "Cool-down" 10 "Z1" (Z1 hr_zones) None])%list in
  Session.mk "VO2 Max Intervals" total_duration segments "Z4"
    ("Target fast-but-controlled reps; stop early if form breaks. Phase: "
     ++ MacrocycleContext.phase macrocycle ++ ".")%string
    None None.

Definition _double_threshold (day : MicrocycleDayContext.t)
    (macrocycle : MacrocycleContext.t) (hr_zones : HrZones) : Session.t :=
  let warmup := 10 in
  let cooldown := 10 in
  let am_block := 25 in
  let pm_block := 30 in
  let easy_between := 10 in
  let planned_total := warmup + am_block + easy_between + pm_block + cooldown in
  let target_total :=
    Z.min (MicrocycleDayContext.availability_minutes day) 90 in
  let '(am_block, pm_block, easy_between) :=
    if target_total <? planned_total then
      let factor := (inject_Z target_total / inject_Z planned_total)%Q in
      (Z.max 15 (Py.round (inject_Z am_block * factor)),
       Z.max 20 (Py.round (inject_Z pm_block * factor)),
       Z.max 5 (Py.round (inject_Z easy_between * factor)))
    else (am_block, pm_block, easy_between) in
  let total_duration := warmup + am_block + easy_between + pm_block + cooldown in
  Session.mk "Double Threshold (conservative)" total_duration
    [Segment.mk "Warm-up" warmup "Z1" (Z1 hr_zones) None;
     Segment.mk "AM Tempo" am_block "Z3" (Z3 hr_zones) None;
     Segment.mk "Recovery jog" easy_between "Z1" (Z1 hr_zones) None;
     Segment.mk "PM Steady" pm_block "Z2" (Z2 hr_zones) None;
     Segment.mk "Cool-down" cooldown "Z1" (Z1 hr_zones) None]
    "Z3"
    ("Keep conservative intensity; cut second block if fatigue rises. Phase: "
     ++ MacrocycleContext.phase macrocycle ++ ".")%string
    None None.

Definition _estimate_load (segments : list Segment.t) : Q :=
  let total :=
    fold_left
      (fun total segment =>
         let factor := INTENSITY_FACTORS_get (Segment.target_zone segment) in
         (total + inject_Z (Segment.duration_minutes segment) * factor)%Q)
      segments 0%Q in
  Py.round_nd total 1.

(** *** Trimming and assembly *)

Definition trim_segment (factor : Q) (segment : Segment.t) : Segment.t :=
  Segment.mk (Segment.label segment)
    (Z.max 0 (Py.round (inject_Z (Segment.duration_minutes segment) * factor)))
    (Segment.target_zone segment) (Segment.hr_range_bpm segment)
    (Segment.notes segment).

Definition _trim_volume (session : Session.t) (factor : Q) (reason : string)
  : M Session.t :=
  let session :=
    Session.set_duration_minutes
      (Z.max 0 (Py.round (inject_Z (Session.duration_minutes session) * factor)))
      session in
  let new_segments := map (trim_segment factor) (Session.segments session) in
  let session := Session.set_segments new_segments session in
  append_adaptation reason ;;;
  ret session.

Definition _trim_to_availability (session : Session.t) (available : Z)
  : M Session.t :=
  if Session.duration_minutes session =? 0 then ret session
  else
    let factor :=
      (inject_Z available
       / inject_Z (Z.max (Session.duration_minutes session) 1))%Q in
    _trim_volume session factor
      ("Duration capped to availability (" ++ Py.str available ++ " min).")%string.

(** The dictionary of builders with its [.get(template, _recovery_run)]. *)
Definition builder (template : string)
  : MicrocycleDayContext.t -> MacrocycleContext.t -> HrZones -> Session.t :=
  if template ==s "Rest" then _rest_day
  else if template ==s "Recovery" then _recovery_run
  else if template ==s "Long Run" then _long_run
  else if template ==s "Threshold" then _threshold_run
  else if template ==s "VO2_Intervals" then _vo2_intervals
  else if template ==s "Double_Threshold" then _double_threshold
  else _recovery_run.

(** [_build_training_session].  The assignment
    [session["primary_zone"] = session.get("primary_zone", "Z1")] changes
    nothing here: every builder sets the key. *)
Definition _build_training_session (template : string)
    (day : MicrocycleDayContext.t) (macrocycle : MacrocycleContext.t)
    (hr_zones : HrZones) (readiness_tier : string) : M Session.t :=
  let session := builder template day macrocycle hr_zones in
  let session := Session.set_template template session in
  session <-
    (if (readiness_tier ==s "moderate")
        && negb (Py.in_set template ["Rest"; "Recovery"])
     then _trim_volume session (85 # 100)
            "Moderate readiness; trimmed volume by 15%."
     else ret session) ;;
  session <-
    (if negb (MicrocycleDayContext.availability_minutes day =? 0)
        && (MicrocycleDayContext.availability_minutes day
            <? Session.duration_minutes session)
     then _trim_to_availability session
            (MicrocycleDayContext.availability_minutes day)
     else ret session) ;;
  ret (Session.set_estimated_load
         (_estimate_load (Session.segments session)) session).

(** The body of [generate_daily_plan], run on the list [adaptations]. *)
Definition plan_steps (user_profile : UserProfile.t)
    (macrocycle_context : MacrocycleContext.t)
    (microcycle_day : MicrocycleDayContext.t)
  : M (list string -> DailyPlan.t) :=
  hr_zones <- _safe_zones user_profile ;;
  load_risk <-
    lift (LoadManager.load_report
            (MicrocycleDayContext.load_history microcycle_day)) ;;
  let '(readiness_score, readiness_tier) :=
    RecoveryEngine.readiness_score
      (MicrocycleDayContext.readiness_inputs microcycle_day)
      user_profile (LoadReport.zone load_risk) in
  selected_template <-
    _adapt_template (MicrocycleDayContext.template microcycle_day)
      readiness_tier (LoadReport.zone load_risk) user_profile ;;
  session <-
    _build_training_session selected_template microcycle_day
      macrocycle_context hr_zones readiness_tier ;;
  let nutrition_plan := NutritionEngine.build_plan session user_profile in
  let recovery_protocol :=
    RecoveryEngine.protocol readiness_tier (LoadReport.zone load_risk)
      user_profile in
  ret (fun adaptations =>
         DailyPlan.mk
           (MicrocycleDayContext.day_index microcycle_day)
           (MicrocycleDayContext.day_name microcycle_day)
           (MicrocycleDayContext.template microcycle_day)
           selected_template session nutrition_plan recovery_protocol
           load_risk (Py.round_nd readiness_score 1) readiness_tier
           adaptations user_profile macrocycle_context).

(** [generate_daily_plan]: [adaptations] starts empty, and the entry
    returned holds the list as it stands at the end. *)
Definition generate_daily_plan (user_profile : UserProfile.t)
    (macrocycle_context : MacrocycleContext.t)
    (microcycle_day : MicrocycleDayContext.t) : exn + DailyPlan.t :=
  match plan_steps user_profile macrocycle_context microcycle_day [] with
  | inl e => inl e
  | inr (entry, adaptations) => inr (entry adaptations)
  end.

End AICoach.

(* ------------------------------------------------------------------ *)
(** ** The image helper [examine_region.py]: named regions

    [crop_percentage] opens the image, reads its size [(w, h)], looks the
    region's name up in a table of boxes [(left, upper, right, lower)] and
    hands the box to [crop_region].  Opening, cropping and saving belong to
    the imaging library; the table and the lookup are modelled here, with
    the size as an argument. *)

Module ExamineRegion.

Definition box : Type := (Z * Z * Z * Z)%type.

(** The dictionary [regions], in the order it is written; [//] is floor
    division. *)
Definition regions (w h : Z) : list (string * box) :=
  [ ("top-left", (0, 0, w / 2, h / 2));
    ("top-right", (w / 2, 0, w, h / 2));
    ("bottom-left", (0, h / 2, w / 2, h));
    ("bottom-right", (w / 2, h / 2, w, h));
    ("top-half", (0, 0, w, h / 2));
    ("bottom-half", (0, h / 2, w, h));
    ("left-half", (0, 0, w / 2, h));
    ("right-half", (w / 2, 0, w, h));
    ("center", (w / 4, h / 4, 3 * w / 4, 3 * h / 4)) ].

(** [regions[region]] for a key that may be missing. *)
Fixpoint lookup (region : string) (table : list (string * box))
  : option box :=
  match table with
  | [] => None
  | (name, b) :: rest => if region ==s name then Some b else lookup region rest
  end.

(** The box that [crop_percentage] passes to [crop_region], or the
    [ValueError] it raises for a name that is not in the table. *)
Definition crop_percentage_box (w h : Z) (region : string) : exn + box :=
  match lookup region (regions w h) with
  | None =>
      inl (ValueError
             ("Unknown region: " ++ region
              ++ ". Valid: ['top-left', 'top-right', 'bottom-left', 'bottom-right', 'top-half', 'bottom-half', 'left-half', 'right-half', 'center']")%string)
  | Some b => inr b
  end.

End ExamineRegion.

(* ================================================================== *)
(** * Properties *)

(** ** Reference notions the statements are phrased with *)

(** The last [n] entries of a sequence, counted from its end. *)
Definition last_entries {A} (n : nat) (xs : list A) : list A :=
  rev (firstn n (rev xs)).

(** The arithmetic mean of a non-empty sequence. *)
Definition arithmetic_mean (xs : list Q) : Q :=
  (fold_right Qplus 0 xs / inject_Z (Z.of_nat (List.length xs)))%Q.

(** The sum of the [duration_minutes] of a list of segments. *)
Definition segments_total (segments : list Segment.t) : Z :=
  fold_right Z.add 0 (map Segment.duration_minutes segments).

(** A duration that no band of [INTRA_CARB_RULES] holds. *)
Definition outside_all_bands (duration : Q) : Prop :=
  forall rule, In rule INTRA_CARB_RULES ->
    ~ (min_minutes rule <= duration /\ duration <= max_minutes rule)%Q.

(** The session that [_trim_volume] returns, without the note it leaves. *)
Definition trimmed (session : Session.t) (factor : Q) : Session.t :=
  Session.set_segments
    (map (AICoach.trim_segment factor) (Session.segments session))
    (Session.set_duration_minutes
       (Z.max 0 (Py.round (inject_Z (Session.duration_minutes session) * factor)))
       session).

(** The session of [_build_training_session] as it stands before the
    availability check: the builder's session with its template recorded,
    trimmed by 0.85 when readiness is moderate and the template is neither
    Rest nor Recovery. *)
Definition pre_availability_session (template : string)
    (day : MicrocycleDayContext.t) (macrocycle : MacrocycleContext.t)
    (hr_zones : HrZones) (readiness_tier : string) : Session.t :=
  let session :=
    Session.set_template template
      (AICoach.builder template day macrocycle hr_zones) in
  if (readiness_tier ==s "moderate")
     && negb (Py.in_set template ["Rest"; "Recovery"])
  then trimmed session (85 # 100)
  else session.

(** A computation that returns [a] after appending [notes] to
    [adaptations], whatever the list held before. *)
Definition writes {A} (m : M A) (a : A) (notes : list string) : Prop :=
  forall ads, m ads = inr (a, (ads ++ notes)%list).

(** The session a builder returns, with the template recorded on it: what
    [_build_training_session] holds before any trimming. *)
Definition built_session (template : string) (day : MicrocycleDayContext.t)
    (macrocycle : MacrocycleContext.t) (hr_zones : HrZones) : Session.t :=
  Session.set_template template
    (AICoach.builder template day macrocycle hr_zones).

(** A session that is one block: no segment and no minutes, or a single
    segment that lasts as long as the session. *)
Definition one_block (session : Session.t) : Prop :=
  (Session.segments session = [] /\ Session.duration_minutes session = 0)
  \/ (exists segment,
         Session.segments session = [segment]
         /\ Segment.duration_minutes segment
            = Session.duration_minutes session).

(** All durations of a session are non-negative. *)
Definition nonnegative (session : Session.t) : Prop :=
  0 <= Session.duration_minutes session
  /\ Forall (fun segment => 0 <= Segment.duration_minutes segment)
            (Session.segments session).

(** A pixel [(x, y)] lies in a crop box [(left, upper, right, lower)]
    when [left <= x < right] and [upper <= y < lower]. *)
Definition in_box (x y : Z) (b : ExamineRegion.box) : Prop :=
  let '(x0, y0, x1, y1) := b in
  x0 <= x < x1 /\ y0 <= y < y1.

(** A profile with its [injury_flag] replaced. *)
Definition with_injury_flag (flag : bool) (user : UserProfile.t)
  : UserProfile.t :=
  UserProfile.mk (UserProfile.user_id user) (UserProfile.age user)
    (UserProfile.sex user) (UserProfile.weight_kg user)
    (UserProfile.height_cm user) (UserProfile.max_hr user)
    (UserProfile.resting_hr user) (UserProfile.training_level user)
    flag (UserProfile.goal_event user) (UserProfile.goal_time_minutes user).

(** ** The inputs of the module's demonstration *)

Definition sample_user : UserProfile.t :=
  UserProfile.mk "athlete-123" 35 (Some "male") 68 (Some 175%Q) (Some 190)
    (Some 52) "intermediate" false (Some "Spring Half Marathon") None.

Definition sample_macro : MacrocycleContext.t :=
  MacrocycleContext.mk "build" 10 "Spring Half Marathon" (Some 55%Q)
    (Some "road").

Definition readiness_inputs : DailyReadinessInputs.t :=
  DailyReadinessInputs.mk (65 # 10) 7 4 5 6 (Some 56) (Some (-5)%Q).

Definition sample_load_history : list Q :=
  map inject_Z
    [48; 52; 60; 62; 50; 40; 55; 70; 68; 64; 60; 58; 62; 65; 63; 60; 58; 55;
     50; 48; 52; 50; 45; 40; 42; 44; 46; 48].

Definition sample_day : MicrocycleDayContext.t :=
  MicrocycleDayContext.mk 2 "Tuesday" "Threshold" 75 readiness_inputs
    (Some 12%Q) sample_load_history (Some "cool, dry").

(** The demonstration day with soreness 6 instead of 4, which brings the
    readiness score to 71.7 and the tier to "moderate". *)
Definition sore_day : MicrocycleDayContext.t :=
  MicrocycleDayContext.mk 2 "Tuesday" "Threshold" 75
    (DailyReadinessInputs.mk (65 # 10) 7 6 5 6 (Some 56) (Some (-5)%Q))
    (Some 12%Q) sample_load_history (Some "cool, dry").

(** The demonstration athlete with the injury flag set. *)
Definition injured_user : UserProfile.t :=
  UserProfile.mk "athlete-123" 35 (Some "male") 68 (Some 175%Q) (Some 190)
    (Some 52) "intermediate" true (Some "Spring Half Marathon") None.

(** A Threshold day after four hours of poor sleep, with three easy weeks
    of 20 units a day followed by a week of 100 units a day. *)
Definition overloaded_day : MicrocycleDayContext.t :=
  MicrocycleDayContext.mk 2 "Tuesday" "Threshold" 75
    (DailyReadinessInputs.mk 4 3 8 8 3 (Some 60) (Some (-10)%Q))
    (Some 12%Q)
    (map inject_Z (repeat 20 21 ++ repeat 100 7)%list)
    (Some "cool, dry").

(** The demonstration athlete without a max heart rate on file. *)
Definition no_max_hr_user : UserProfile.t :=
  UserProfile.mk "athlete-123" 35 (Some "male") 68 (Some 175%Q) None
    (Some 52) "intermediate" false (Some "Spring Half Marathon") None.

(** A session of one 100 minute easy segment. *)
Definition easy_100_session : Session.t :=
  Session.mk "Recovery" 100 [Segment.mk "Easy" 100 "Z1" (128, 151) None]
    "Z1" "" (Some "Recovery") None.

(** A 75 minute threshold session, as [build_plan] receives it. *)
Definition threshold_75_session : Session.t :=
  Session.mk "Lactate Threshold" 75 [] "Z3" "" (Some "Threshold") None.

(** ** Comparisons *)

Lemma Qle_bool_false (x y : Q) : Qle_bool x y = false <-> (y < x)%Q.
Proof.
  split; intro H.
  - apply Qnot_le_lt. intro Hle. apply Qle_bool_iff in Hle. congruence.
  - destruct (Qle_bool x y) eqn:E; [|reflexivity].
    apply Qle_bool_iff in E. exfalso. apply (Qlt_not_le _ _ H E).
Qed.

Ltac qcases :=
  repeat match goal with
  | |- context [Qlt_le_dec ?a ?b] => destruct (Qlt_le_dec a b)
  | H : context [Qlt_le_dec ?a ?b] |- _ => destruct (Qlt_le_dec a b)
  | |- context [Qle_bool ?a ?b] =>
      let E := fresh "E" in
      destruct (Qle_bool a b) eqn:E;
      [apply Qle_bool_iff in E | apply Qle_bool_false in E]
  | H : context [Qle_bool ?a ?b] |- _ =>
      let E := fresh "E" in
      destruct (Qle_bool a b) eqn:E;
      [apply Qle_bool_iff in E | apply Qle_bool_false in E]
  end.

(** ** LoadManager *)

Lemma slice_last_is_last_entries {A} (n : nat) (xs : list A) :
  Py.slice_last n xs = last_entries n xs.
Proof.
  unfold Py.slice_last, last_entries.
  rewrite firstn_rev, rev_involutive. reflexivity.
Qed.

Lemma slice_last_nonempty {A} (n : nat) (xs : list A) :
  xs <> [] -> (0 < n)%nat -> Py.slice_last n xs <> [].
Proof.
  intros Hne Hn Hnil.
  apply (f_equal (@List.length A)) in Hnil.
  unfold Py.slice_last in Hnil. rewrite length_skipn in Hnil.
  assert (0 < List.length xs)%nat
    by (destruct xs; [congruence | simpl; lia]).
  change (List.length (@nil A)) with 0%nat in Hnil. lia.
Qed.

Lemma mean_nonempty (xs : list Q) :
  xs <> [] -> Py.mean xs = inr (arithmetic_mean xs).
Proof. destruct xs; [congruence|reflexivity]. Qed.

Lemma classify_acwr_finite (q : Q) :
  LoadManager.classify_acwr (Finite q) =
    if Qlt_le_dec q (8 # 10) then "underload"
    else if Qlt_le_dec (13 # 10) q then
           if Qlt_le_dec (15 # 10) q then "high" else "elevated"
         else "optimal".
Proof.
  unfold LoadManager.classify_acwr, pyfloat_lt, pyfloat_le.
  change (ACWR_THRESHOLDS "under") with (8 # 10).
  change (ACWR_THRESHOLDS "optimal_low") with (8 # 10).
  change (ACWR_THRESHOLDS "optimal_high") with (13 # 10).
  change (ACWR_THRESHOLDS "elevated_high") with (15 # 10).
  qcases; simpl; try reflexivity; exfalso; lra.
Qed.

(** C4. Whenever the chronic load is positive the ratio is the finite
    quotient acute/chronic, and [classify_acwr] sends it to exactly one
    zone: "underload" exactly below 0.8, "optimal" exactly on [0.8, 1.3],
    "elevated" exactly on (1.3, 1.5], "high" exactly above 1.5. *)
Theorem classify_acwr_partition (acute chronic : Q) :
  (0 < chronic)%Q ->
  let q := (acute / chronic)%Q in
  LoadManager.compute_acwr acute chronic = Finite q
  /\ (LoadManager.classify_acwr (Finite q) = "underload" <-> (q < 8 # 10)%Q)
  /\ (LoadManager.classify_acwr (Finite q) = "optimal"
      <-> (8 # 10 <= q /\ q <= 13 # 10)%Q)
  /\ (LoadManager.classify_acwr (Finite q) = "elevated"
      <-> (13 # 10 < q /\ q <= 15 # 10)%Q)
  /\ (LoadManager.classify_acwr (Finite q) = "high" <-> (15 # 10 < q)%Q).
Proof.
  intros Hc q. split.
  - unfold LoadManager.compute_acwr.
    destruct (Qle_bool chronic 0) eqn:E; [|reflexivity].
    apply Qle_bool_iff in E. exfalso. lra.
  - rewrite classify_acwr_finite. generalize q. clear. intro q.
    repeat split; qcases; intros; try discriminate; try reflexivity;
      try lra; exfalso; lra.
Qed.

Lemma classify_acwr_partition_witness :
  LoadManager.compute_acwr 13 10 = Finite (13 / 10)
  /\ LoadManager.classify_acwr (Finite (13 / 10)) = "optimal".
Proof.
  destruct (classify_acwr_partition 13 10 ltac:(reflexivity))
    as (Hq & _ & Hopt & _).
  split; [exact Hq|].
  apply Hopt. split; discriminate.
Defined.

Lemma compute_acute_chronic_nonempty (h : list Q) :
  h <> [] ->
  LoadManager.compute_acute_chronic h =
    inr (arithmetic_mean (last_entries 7 h),
         arithmetic_mean
           (if (List.length h <? 28)%nat then h else last_entries 28 h)).
Proof.
  intro Hne. unfold LoadManager.compute_acute_chronic.
  destruct h as [|x h']; [congruence|].
  set (h := x :: h') in *.
  rewrite (mean_nonempty (Py.slice_last 7 h))
    by (apply slice_last_nonempty; [exact Hne | lia]).
  rewrite Nat.ltb_antisym.
  destruct (28 <=? List.length h)%nat eqn:E; simpl negb; cbv iota.
  - rewrite (mean_nonempty (Py.slice_last 28 h))
      by (apply slice_last_nonempty; [exact Hne | lia]).
    rewrite !slice_last_is_last_entries. reflexivity.
  - rewrite (mean_nonempty h) by exact Hne.
    rewrite slice_last_is_last_entries. reflexivity.
Qed.

(** C5. [compute_acute_chronic] always returns: on a non-empty history
    the acute load is the arithmetic mean of the last 7 entries and the
    chronic load the mean of the last 28 entries, or of all entries when
    there are fewer than 28 (an empty history, which has no mean, gives
    0 and 0).  [compute_acwr] is acute/chronic when chronic > 0, infinite
    when chronic is zero and acute positive, and zero when both are
    zero. *)
Theorem acute_chronic_means_and_ratio (h : list Q) :
  (exists acute chronic,
      LoadManager.compute_acute_chronic h = inr (acute, chronic)
      /\ (h <> [] ->
          acute = arithmetic_mean (last_entries 7 h)
          /\ chronic = arithmetic_mean
                         (if (List.length h <? 28)%nat then h
                          else last_entries 28 h))
      /\ (h = [] -> acute = 0%Q /\ chronic = 0%Q))
  /\ (forall acute chronic : Q,
         ((0 < chronic)%Q ->
          LoadManager.compute_acwr acute chronic = Finite (acute / chronic))
         /\ (chronic == 0 -> (0 < acute)%Q ->
             LoadManager.compute_acwr acute chronic = Inf)
         /\ (chronic == 0 -> acute == 0 ->
             LoadManager.compute_acwr acute chronic = Finite 0)).
Proof.
  split.
  - destruct h as [|x h'].
    + exists 0%Q, 0%Q. repeat split; congruence.
    + rewrite compute_acute_chronic_nonempty by discriminate.
      eexists _, _. split; [reflexivity|].
      split; [intros _; split; reflexivity | discriminate].
  - intros acute chronic. unfold LoadManager.compute_acwr.
    repeat split; intros; qcases; try reflexivity; exfalso; lra.
Qed.

Lemma acute_chronic_means_and_ratio_witness :
  exists acute chronic,
    LoadManager.compute_acute_chronic [10; 20; 30; 40; 50; 60; 70; 80; 90]%Q
    = inr (acute, chronic)
    /\ acute == 60 /\ chronic == 50
    /\ LoadManager.compute_acwr acute chronic = Finite (acute / chronic).
Proof.
  destruct (acute_chronic_means_and_ratio
              [10; 20; 30; 40; 50; 60; 70; 80; 90]%Q)
    as ((acute & chronic & Hrun & Hmean & _) & Hratio).
  destruct (Hmean ltac:(discriminate)) as (Ha & Hc).
  exists acute, chronic. split; [exact Hrun|].
  subst acute chronic.
  split; [reflexivity|]. split; [reflexivity|].
  apply Hratio. reflexivity.
Defined.

(** ** RecoveryEngine *)

Lemma clamp_bounds (value lower upper : Q) :
  (lower <= upper)%Q ->
  (lower <= clamp value lower upper /\ clamp value lower upper <= upper)%Q.
Proof.
  intro H. unfold clamp, Py.max, Py.min. qcases; split; lra.
Qed.

(** C7. For every readiness input, profile and load zone the score lies
    in [0, 100]; the tier is "high" exactly when score >= 75, "moderate"
    exactly when 50 <= score < 75, and "low" exactly when score < 50. *)
Theorem readiness_score_clamped_and_tiered
    (inputs : DailyReadinessInputs.t) (user : UserProfile.t)
    (load_zone : string) :
  let score := fst (RecoveryEngine.readiness_score inputs user load_zone) in
  let tier := snd (RecoveryEngine.readiness_score inputs user load_zone) in
  (0 <= score /\ score <= 100)%Q
  /\ (tier = "high" <-> (75 <= score)%Q)
  /\ (tier = "moderate" <-> (50 <= score /\ score < 75)%Q)
  /\ (tier = "low" <-> (score < 50)%Q).
Proof.
  unfold RecoveryEngine.readiness_score. cbv zeta.
  match goal with
  | |- context [clamp ?raw 0 100] => generalize raw
  end.
  intro raw. cbn [fst snd].
  change (READINESS_TIER_BOUNDS "high") with 75%Q.
  change (READINESS_TIER_BOUNDS "moderate") with 50%Q.
  pose proof (clamp_bounds raw 0 100 ltac:(discriminate)) as [Hlo Hhi].
  generalize dependent (clamp raw 0 100). intros score Hlo Hhi.
  split; [split; assumption|].
  repeat split; qcases; intros; try discriminate; try reflexivity;
    try lra; exfalso; lra.
Qed.

(** ** Rounding *)

Lemma round_compat (x y : Q) : x == y -> Py.round x = Py.round y.
Proof.
  intro H. unfold Py.round.
  rewrite (Qfloor_comp x y H).
  assert (Hc : (x - inject_Z (Qfloor y) ?= 1 # 2)%Q
               = (y - inject_Z (Qfloor y) ?= 1 # 2)%Q)
    by (apply Qcompare_comp; [rewrite H|]; reflexivity).
  rewrite Hc. reflexivity.
Qed.

Lemma round_inject_Z (z : Z) : Py.round (inject_Z z) = z.
Proof.
  unfold Py.round. rewrite Qfloor_Z.
  assert (Hc : (inject_Z z - inject_Z z ?= 1 # 2)%Q = Lt)
    by (rewrite <- Qlt_alt; lra).
  rewrite Hc. reflexivity.
Qed.

Lemma round_nd_compat (x y : Q) (n : nat) :
  x == y -> Py.round_nd x n = Py.round_nd y n.
Proof.
  intro H. unfold Py.round_nd.
  rewrite (round_compat (x * _) (y * _)) by (rewrite H; reflexivity).
  reflexivity.
Qed.

(** ** NutritionEngine *)

(** C8. At 68 kg, with a long or hard template and a 75 minute session,
    whatever the primary zone: pre-run carbs 68.0 g, intra-run carbs
    30 g/h (the 70 g/h override needs 90 minutes), post-run protein
    18.4 g and post-run carbs 54.4 g. *)
Theorem nutrition_example_68kg_75min
    (session : Session.t) (user : UserProfile.t) (tpl : string) :
  UserProfile.weight_kg user == 68 ->
  Session.duration_minutes session = 75 ->
  Session.template session = Some tpl ->
  In tpl ["Long Run"; "Threshold"; "VO2_Intervals"; "Double_Threshold"] ->
  let plan := NutritionEngine.build_plan session user in
  PreRun.carbs_g (NutritionPlan.pre_run plan) == 68
  /\ IntraRun.carbs_g_per_hour (NutritionPlan.intra_run plan) == 30
  /\ PostRun.protein_g (NutritionPlan.post_run plan) == 184 # 10
  /\ PostRun.carbs_g (NutritionPlan.post_run plan) == 544 # 10.
Proof.
  intros Hw Hd Ht Hin plan. subst plan.
  unfold NutritionEngine.build_plan. rewrite Hd, Ht.
  assert (Hset : Py.in_set tpl
            ["Long Run"; "Threshold"; "VO2_Intervals"; "Double_Threshold"]
          = true).
  { simpl in Hin.
    destruct Hin as [<-|[<-|[<-|[<-|[]]]]]; reflexivity. }
  rewrite Hset. cbv zeta. cbn [NutritionPlan.pre_run NutritionPlan.intra_run
    NutritionPlan.post_run PreRun.carbs_g].
  split.
  { rewrite (round_nd_compat _ (68 * 1)%Q)
      by (rewrite Hw; reflexivity).
    reflexivity. }
  split.
  { unfold NutritionEngine._intra_fueling.
    replace (Qle_bool 90 (inject_Z 75)) with false by reflexivity.
    rewrite andb_false_r. reflexivity. }
  unfold NutritionEngine._post_fueling.
  replace (Qle_bool 90 (inject_Z 75)) with false by reflexivity.
  replace (Qle_bool 46 (inject_Z 75)) with true by reflexivity.
  cbn [PostRun.protein_g PostRun.carbs_g].
  split.
  - rewrite (round_nd_compat _ (68 * POST_RUN_PROTEIN_G_PER_KG)%Q)
      by (rewrite Hw; reflexivity).
    reflexivity.
  - rewrite (round_nd_compat _ (68 * POST_RUN_CARB_G_PER_KG "medium")%Q)
      by (rewrite Hw; reflexivity).
    reflexivity.
Qed.

Lemma nutrition_example_68kg_75min_witness :
  PreRun.carbs_g
    (NutritionPlan.pre_run
       (NutritionEngine.build_plan threshold_75_session sample_user)) == 68
  /\ IntraRun.carbs_g_per_hour
       (NutritionPlan.intra_run
          (NutritionEngine.build_plan threshold_75_session sample_user)) == 30
  /\ PostRun.protein_g
       (NutritionPlan.post_run
          (NutritionEngine.build_plan threshold_75_session sample_user))
     == 184 # 10
  /\ PostRun.carbs_g
       (NutritionPlan.post_run
          (NutritionEngine.build_plan threshold_75_session sample_user))
     == 544 # 10.
Proof.
  apply (nutrition_example_68kg_75min threshold_75_session sample_user
           "Threshold");
    [reflexivity | reflexivity | reflexivity | simpl; tauto].
Defined.

Lemma claimed_gaps_outside_all_bands (duration : Q) :
  (180 < duration /\ duration < 181)%Q \/ (300 < duration)%Q ->
  outside_all_bands duration.
Proof.
  intros H rule Hin [Hlo Hhi]. simpl in Hin.
  destruct Hin as [<-|[<-|[<-|[<-|[]]]]]; simpl in Hlo, Hhi; lra.
Qed.

Lemma select_rule_outside (duration : Q) :
  outside_all_bands duration ->
  NutritionEngine.select_rule duration
  = mkIntraRule 0 59 0 "Water" 300.
Proof.
  intro Hout. unfold NutritionEngine.select_rule.
  destruct (find (NutritionEngine.in_band duration) INTRA_CARB_RULES)
    as [rule|] eqn:E; [|reflexivity].
  apply find_some in E. destruct E as [Hin Hband].
  unfold NutritionEngine.in_band in Hband.
  apply andb_true_iff in Hband. destruct Hband as [H1 H2].
  apply Qle_bool_iff in H1, H2.
  exfalso. exact (Hout rule Hin (conj H1 H2)).
Qed.

(** C10. A duration that lies in none of the four bands (in particular
    one strictly between 180 and 181 minutes, or above 300) gets the first
    band's rule: fluids "Water", electrolytes 300 mg/L and 0 g/h carbs,
    the carbs being 70 g/h instead when the zone is Z4 or Z5 and the
    duration is at least 90 minutes. *)
Theorem intra_fueling_fallback (duration : Q) (intensity_zone : string) :
  ((180 < duration /\ duration < 181)%Q \/ (300 < duration)%Q ->
   outside_all_bands duration)
  /\ (outside_all_bands duration ->
      let plan := NutritionEngine._intra_fueling duration intensity_zone in
      IntraRun.fluids plan = "Water"
      /\ IntraRun.electrolytes_mg_per_l plan = 300
      /\ IntraRun.carbs_g_per_hour plan
         = if Py.in_set intensity_zone ["Z4"; "Z5"] && Qle_bool 90 duration
           then 70%Q else 0%Q).
Proof.
  split; [apply claimed_gaps_outside_all_bands|].
  intros Hout plan. subst plan.
  unfold NutritionEngine._intra_fueling.
  rewrite (select_rule_outside duration Hout). cbv zeta.
  cbn [carbs_g_per_hour fluids electrolytes_mg_per_l IntraRun.fluids
       IntraRun.electrolytes_mg_per_l IntraRun.carbs_g_per_hour].
  split; [reflexivity|]. split; reflexivity.
Qed.

Lemma intra_fueling_fallback_witness :
  IntraRun.fluids (NutritionEngine._intra_fueling 301 "Z4") = "Water"
  /\ IntraRun.electrolytes_mg_per_l (NutritionEngine._intra_fueling 301 "Z4")
     = 300
  /\ IntraRun.carbs_g_per_hour (NutritionEngine._intra_fueling 301 "Z4")
     = 70%Q.
Proof.
  destruct (intra_fueling_fallback 301 "Z4") as [Hgap Hrule].
  apply Hrule. apply Hgap. right. reflexivity.
Defined.

(** ** The accumulating list *)

Lemma writes_ret {A} (a : A) : writes (ret a) a [].
Proof. intro ads. unfold ret. rewrite app_nil_r. reflexivity. Qed.

Lemma writes_append (note : string) :
  writes (append_adaptation note) tt [note].
Proof. intro ads. reflexivity. Qed.

Lemma writes_bind {A B} (m : M A) (k : A -> M B) a b notes1 notes2 :
  writes m a notes1 -> writes (k a) b notes2 ->
  writes (bind m k) b (notes1 ++ notes2).
Proof.
  intros Hm Hk ads. unfold bind. rewrite Hm, Hk, app_assoc. reflexivity.
Qed.

Lemma writes_lift {A} (r : exn + A) (a : A) :
  r = inr a -> writes (lift r) a [].
Proof. intros -> ads. unfold lift. rewrite app_nil_r. reflexivity. Qed.

Lemma writes_trim_volume (session : Session.t) (factor : Q) (reason : string) :
  writes (AICoach._trim_volume session factor reason)
         (trimmed session factor) [reason].
Proof. intro ads. reflexivity. Qed.

(** ** Trimming to the available minutes *)

Lemma availability_factor_exact (available duration : Z) :
  0 < available -> available < duration ->
  Z.max 0 (Py.round (inject_Z duration
                     * (inject_Z available / inject_Z (Z.max duration 1))))
  = available.
Proof.
  intros Ha Hd.
  replace (Z.max duration 1) with duration by lia.
  rewrite (round_compat _ (inject_Z available)).
  - rewrite round_inject_Z. lia.
  - field. intro H0. unfold Qeq in H0. simpl in H0. lia.
Qed.

Lemma writes_trim_to_availability (session : Session.t) (available : Z) :
  Session.duration_minutes session <> 0 ->
  writes (AICoach._trim_to_availability session available)
    (trimmed session
       (inject_Z available
        / inject_Z (Z.max (Session.duration_minutes session) 1)))
    [("Duration capped to availability (" ++ Py.str available ++ " min).")%string].
Proof.
  intros Hne ads. unfold AICoach._trim_to_availability.
  apply Z.eqb_neq in Hne. rewrite Hne. reflexivity.
Qed.

Lemma writes_readiness_step (template readiness_tier : string)
    (day : MicrocycleDayContext.t) (macrocycle : MacrocycleContext.t)
    (hr_zones : HrZones) :
  exists notes,
    writes
      (if (readiness_tier ==s "moderate")
          && negb (Py.in_set template ["Rest"; "Recovery"])
       then AICoach._trim_volume
              (Session.set_template template
                 (AICoach.builder template day macrocycle hr_zones))
              (85 # 100) "Moderate readiness; trimmed volume by 15%."
       else ret (Session.set_template template
                   (AICoach.builder template day macrocycle hr_zones)))
      (pre_availability_session template day macrocycle hr_zones readiness_tier)
      notes.
Proof.
  unfold pre_availability_session. cbv zeta.
  destruct ((readiness_tier ==s "moderate")
            && negb (Py.in_set template ["Rest"; "Recovery"])).
  - eexists. apply writes_trim_volume.
  - eexists. apply writes_ret.
Qed.

(** C3. With a positive availability, [_build_training_session] returns a
    session whose duration is at most the availability; when the duration
    before the availability check exceeds it, the trimmed duration is the
    availability exactly. *)
Theorem build_session_fits_availability (template : string)
    (day : MicrocycleDayContext.t) (macrocycle : MacrocycleContext.t)
    (hr_zones : HrZones) (readiness_tier : string) (ads : list string) :
  0 < MicrocycleDayContext.availability_minutes day ->
  exists session ads',
    AICoach._build_training_session template day macrocycle hr_zones
      readiness_tier ads = inr (session, ads')
    /\ Session.duration_minutes session
       <= MicrocycleDayContext.availability_minutes day
    /\ (MicrocycleDayContext.availability_minutes day
        < Session.duration_minutes
            (pre_availability_session template day macrocycle hr_zones
               readiness_tier) ->
        Session.duration_minutes session
        = MicrocycleDayContext.availability_minutes day).
Proof.
  intro Hpos.
  destruct (writes_readiness_step template readiness_tier day macrocycle
              hr_zones) as [notes Hstep].
  unfold AICoach._build_training_session. cbv zeta.
  unfold bind at 1. rewrite Hstep.
  set (pre := pre_availability_session template day macrocycle hr_zones
                readiness_tier).
  set (avail := MicrocycleDayContext.availability_minutes day) in *.
  unfold bind.
  assert (Hnz : (avail =? 0) = false) by (apply Z.eqb_neq; lia).
  rewrite Hnz. cbn [negb andb].
  destruct (avail <? Session.duration_minutes pre) eqn:Hlt.
  - apply Z.ltb_lt in Hlt.
    rewrite (writes_trim_to_availability pre avail) by lia.
    eexists _, _. split; [reflexivity|].
    cbn [Session.duration_minutes Session.set_estimated_load trimmed
         Session.set_segments Session.set_duration_minutes].
    rewrite (availability_factor_exact avail _ Hpos Hlt). lia.
  - apply Z.ltb_ge in Hlt. unfold ret.
    eexists _, _. split; [reflexivity|].
    cbn [Session.duration_minutes Session.set_estimated_load]. lia.
Qed.

Lemma build_session_fits_availability_witness :
  exists session ads',
    AICoach._build_training_session "Long Run"
      (MicrocycleDayContext.mk 6 "Sunday" "Long Run" 60 readiness_inputs None
         sample_load_history None)
      sample_macro (mkHrZones (128, 151) (151, 165) (165, 175) (175, 183)
                      (183, 190))
      "high" [] = inr (session, ads')
    /\ Session.duration_minutes session = 60.
Proof.
  destruct (build_session_fits_availability "Long Run"
              (MicrocycleDayContext.mk 6 "Sunday" "Long Run" 60
                 readiness_inputs None sample_load_history None)
              sample_macro
              (mkHrZones (128, 151) (151, 165) (165, 175) (175, 183)
                 (183, 190))
              "high" [] ltac:(reflexivity))
    as (session & ads' & Hrun & _ & Hexact).
  exists session, ads'. split; [exact Hrun|].
  apply Hexact. reflexivity.
Defined.

(** ** Trimming by a factor *)






(** ** Segment durations against the reported duration *)

Ltac sum_up :=
  unfold segments_total;
  cbn -[Z.max Z.min Z.add Z.sub Z.mul Z.ltb Py.round Py.str Qdiv Qmult inject_Z];
  lia.

Lemma long_run_segments_total day macrocycle hr_zones :
  segments_total (Session.segments (AICoach._long_run day macrocycle hr_zones))
  = Session.duration_minutes (AICoach._long_run day macrocycle hr_zones).
Proof.
  unfold AICoach._long_run. cbv zeta.
  change (0 <? 8) with true. cbv iota.
  match goal with
  | |- context [if ?c then _ else _] => destruct c
  end; sum_up.
Qed.

Lemma threshold_run_segments_total day macrocycle hr_zones :
  segments_total (Session.segments (AICoach._threshold_run day macrocycle hr_zones))
  = Session.duration_minutes (AICoach._threshold_run day macrocycle hr_zones).
Proof.
  unfold AICoach._threshold_run. cbv zeta.
  change (Z.max 2 (3 - 1)) with 2.
  match goal with
  | |- context [if ?c then _ else _] => destruct c
  end; cbv iota.
  - change (AICoach.range 2) with [0; 1].
    change (AICoach.range (2 - 1)) with [0]. sum_up.
  - change (AICoach.range 3) with [0; 1; 2].
    change (AICoach.range (3 - 1)) with [0; 1]. sum_up.
Qed.

Lemma vo2_intervals_segments_total day macrocycle hr_zones :
  segments_total (Session.segments (AICoach._vo2_intervals day macrocycle hr_zones))
  = Session.duration_minutes (AICoach._vo2_intervals day macrocycle hr_zones).
Proof.
  unfold AICoach._vo2_intervals. cbv zeta.
  change (Z.max 4 (5 - 1)) with 4.
  match goal with
  | |- context [if ?c then _ else _] => destruct c
  end; cbv iota.
  - change (AICoach.range 4) with [0; 1; 2; 3].
    change (AICoach.range (4 - 1)) with [0; 1; 2]. sum_up.
  - change (AICoach.range 5) with [0; 1; 2; 3; 4].
    change (AICoach.range (5 - 1)) with [0; 1; 2; 3]. sum_up.
Qed.

Lemma double_threshold_segments_total day macrocycle hr_zones :
  segments_total
    (Session.segments (AICoach._double_threshold day macrocycle hr_zones))
  = Session.duration_minutes (AICoach._double_threshold day macrocycle hr_zones).
Proof.
  unfold AICoach._double_threshold. cbv zeta.
  match goal with
  | |- context [if ?c then _ else _] => destruct c
  end; sum_up.
Qed.

Lemma recovery_run_segments_total day macrocycle hr_zones :
  segments_total (Session.segments (AICoach._recovery_run day macrocycle hr_zones))
  = Session.duration_minutes (AICoach._recovery_run day macrocycle hr_zones).
Proof. unfold AICoach._recovery_run. sum_up. Qed.

(** Every builder reports the sum of the segments it lists. *)
Lemma builder_segments_total (template : string)
    (day : MicrocycleDayContext.t) (macrocycle : MacrocycleContext.t)
    (hr_zones : HrZones) :
  segments_total
    (Session.segments (AICoach.builder template day macrocycle hr_zones))
  = Session.duration_minutes (AICoach.builder template day macrocycle hr_zones).
Proof.
  unfold AICoach.builder.
  destruct (template ==s "Rest"); [reflexivity|].
  destruct (template ==s "Recovery"); [apply recovery_run_segments_total|].
  destruct (template ==s "Long Run"); [apply long_run_segments_total|].
  destruct (template ==s "Threshold"); [apply threshold_run_segments_total|].
  destruct (template ==s "VO2_Intervals");
    [apply vo2_intervals_segments_total|].
  destruct (template ==s "Double_Threshold");
    [apply double_threshold_segments_total
    |apply recovery_run_segments_total].
Qed.

(** C2, at the failing input. On the demonstration inputs with soreness 6
    the readiness tier is "moderate", the requested Threshold session is
    trimmed by 0.85, and the plan reports 52 minutes while its segments
    (13, 8, 3, 8, 3, 8, 8) add up to 51. *)
Theorem moderate_trim_breaks_segment_sum :
  exists plan,
    AICoach.generate_daily_plan sample_user sample_macro sore_day = inr plan
    /\ DailyPlan.readiness_tier plan = "moderate"
    /\ DailyPlan.template_final plan = "Threshold"
    /\ Session.duration_minutes (DailyPlan.training_session plan) = 52
    /\ map Segment.duration_minutes
           (Session.segments (DailyPlan.training_session plan))
       = [13; 8; 3; 8; 3; 8; 8]
    /\ segments_total (Session.segments (DailyPlan.training_session plan)) = 51.
Proof.
  eexists. split; [vm_compute; reflexivity|].
  repeat split.
Qed.

(** ** The facade never raises *)

Lemma writes_functional {A} (m : M A) a1 a2 notes1 notes2 :
  writes m a1 notes1 -> writes m a2 notes2 -> a1 = a2 /\ notes1 = notes2.
Proof.
  intros H1 H2. specialize (H1 []). specialize (H2 []).
  rewrite H1 in H2. simpl in H2. injection H2 as -> ->. split; reflexivity.
Qed.

Lemma truthy_false_iff (o : option Z) :
  Py.truthy o = false <-> o = None \/ o = Some 0.
Proof.
  destruct o as [n|]; simpl.
  - rewrite negb_false_iff, Z.eqb_eq. split.
    + intros ->. right. reflexivity.
    + intros [H|H]; congruence.
  - split; [left|]; reflexivity.
Qed.

Lemma heart_rate_zones_raises_iff (max_hr resting_hr : option Z) :
  (exists e, PhysiologyEngine.heart_rate_zones max_hr resting_hr = inl e)
  <-> Py.truthy max_hr = false.
Proof.
  unfold PhysiologyEngine.heart_rate_zones.
  destruct (Py.truthy max_hr); simpl; split.
  - intros [e H]. discriminate.
  - discriminate.
  - reflexivity.
  - intros _. eexists. reflexivity.
Qed.

Lemma heart_rate_zones_returns (max_hr resting_hr : option Z) :
  Py.truthy max_hr = true ->
  exists zones,
    PhysiologyEngine.heart_rate_zones max_hr resting_hr = inr zones.
Proof.
  intro H. unfold PhysiologyEngine.heart_rate_zones. rewrite H.
  eexists. reflexivity.
Qed.

Lemma or_default_truthy (o : option Z) (d : Z) :
  d <> 0 -> Py.truthy (Some (Py.or_default o d)) = true.
Proof.
  intro Hd. unfold Py.truthy, Py.or_default.
  destruct o as [n|].
  - destruct (n =? 0) eqn:E; apply negb_true_iff, Z.eqb_neq;
      [exact Hd | apply Z.eqb_neq; exact E].
  - apply negb_true_iff, Z.eqb_neq. exact Hd.
Qed.

Lemma or_default_missing (o : option Z) (d : Z) :
  Py.truthy o = false -> Py.or_default o d = d.
Proof.
  intro H. apply truthy_false_iff in H. destruct H as [-> | ->]; reflexivity.
Qed.

Lemma writes_safe_zones (user : UserProfile.t) :
  exists zones notes,
    writes (AICoach._safe_zones user) zones notes
    /\ (Py.truthy (UserProfile.max_hr user) = false ->
        notes = ["Missing max_hr; defaulting to 190 bpm for zone calc."]
        /\ PhysiologyEngine.heart_rate_zones (Some 190)
             (UserProfile.resting_hr user) = inr zones)
    /\ (Py.truthy (UserProfile.max_hr user) = true -> notes = []).
Proof.
  destruct (heart_rate_zones_returns
              (Some (Py.or_default (UserProfile.max_hr user) 190))
              (UserProfile.resting_hr user)
              (or_default_truthy _ 190 ltac:(discriminate)))
    as [zones Hz].
  exists zones. unfold AICoach._safe_zones.
  destruct (Py.truthy (UserProfile.max_hr user)) eqn:E; cbn [negb when].
  - exists []. split; [|split; [discriminate | reflexivity]].
    change [] with (@nil string ++ [])%list.
    eapply writes_bind; [apply writes_ret|].
    apply writes_lift. exact Hz.
  - exists ["Missing max_hr; defaulting to 190 bpm for zone calc."].
    split; [|split; [|discriminate]].
    + change ["Missing max_hr; defaulting to 190 bpm for zone calc."]
        with (["Missing max_hr; defaulting to 190 bpm for zone calc."] ++ [])%list.
      eapply writes_bind; [apply writes_append|].
      apply writes_lift. exact Hz.
    + intros _. split; [reflexivity|].
      rewrite (or_default_missing _ 190 E) in Hz. exact Hz.
Qed.

Lemma load_report_returns (load_history : list Q) :
  exists report, LoadManager.load_report load_history = inr report.
Proof.
  unfold LoadManager.load_report.
  destruct load_history as [|x h].
  - eexists. reflexivity.
  - rewrite compute_acute_chronic_nonempty by discriminate.
    eexists. reflexivity.
Qed.

Ltac writes_steps :=
  repeat first
    [ apply writes_ret
    | apply writes_append
    | apply writes_trim_volume
    | eapply writes_bind ].

Lemma writes_adapt_template (template readiness_tier acwr_zone : string)
    (user : UserProfile.t) :
  exists final notes,
    writes (AICoach._adapt_template template readiness_tier acwr_zone user)
           final notes.
Proof.
  unfold AICoach._adapt_template. cbv zeta.
  destruct (UserProfile.injury_flag user),
    (Py.in_set template ["Rest"; "Recovery"]),
    (readiness_tier ==s "low"),
    (Py.in_set acwr_zone ["high"]),
    (Py.in_set template ["VO2_Intervals"; "Double_Threshold"]),
    (Py.in_set acwr_zone ["elevated"]);
    cbn [andb negb]; eexists _, _; writes_steps.
Qed.

Lemma writes_adapt_template_injury_threshold (readiness_tier acwr_zone : string)
    (user : UserProfile.t) :
  UserProfile.injury_flag user = true ->
  exists rest,
    writes (AICoach._adapt_template "Threshold" readiness_tier acwr_zone user)
      (if (readiness_tier ==s "low") && (acwr_zone ==s "high")
       then "Rest" else "Recovery")
      ("Injury flag set; downgrading to Recovery." :: rest).
Proof.
  intro Hinj. unfold AICoach._adapt_template. cbv zeta. rewrite Hinj.
  change (Py.in_set "Threshold" ["Rest"; "Recovery"]) with false.
  change (Py.in_set "Threshold" ["VO2_Intervals"; "Double_Threshold"])
    with false.
  change (Py.in_set acwr_zone ["high"]) with ((acwr_zone ==s "high") || false).
  rewrite orb_false_r.
  destruct (readiness_tier ==s "low"), (acwr_zone ==s "high"),
    (Py.in_set acwr_zone ["elevated"]);
    cbn [andb negb]; eexists; intro ads;
    cbv [bind ret append_adaptation]; rewrite <- ?app_assoc; reflexivity.
Qed.

Lemma writes_build_training_session (template : string)
    (day : MicrocycleDayContext.t) (macrocycle : MacrocycleContext.t)
    (hr_zones : HrZones) (readiness_tier : string) :
  exists session notes,
    writes (AICoach._build_training_session template day macrocycle hr_zones
              readiness_tier) session notes.
Proof.
  destruct (writes_readiness_step template readiness_tier day macrocycle
              hr_zones) as [notes1 Hstep].
  set (pre := pre_availability_session template day macrocycle hr_zones
                readiness_tier) in *.
  assert (Hfit : exists fitted notes2,
             writes
               (if negb (MicrocycleDayContext.availability_minutes day =? 0)
                   && (MicrocycleDayContext.availability_minutes day
                       <? Session.duration_minutes pre)
                then AICoach._trim_to_availability pre
                       (MicrocycleDayContext.availability_minutes day)
                else ret pre) fitted notes2).
  { destruct (negb (MicrocycleDayContext.availability_minutes day =? 0)
              && (MicrocycleDayContext.availability_minutes day
                  <? Session.duration_minutes pre)).
    - unfold AICoach._trim_to_availability.
      destruct (Session.duration_minutes pre =? 0);
        eexists _, _; writes_steps.
    - eexists _, _. apply writes_ret. }
  destruct Hfit as (fitted & notes2 & Hfit).
  unfold AICoach._build_training_session. cbv zeta.
  eexists _, _.
  eapply writes_bind; [exact Hstep|]. cbv beta.
  eapply writes_bind; [exact Hfit|]. apply writes_ret.
Qed.

(** The plan as a composition of its steps: nothing raises, and the list
    of adaptations is what the three steps that touch it have appended. *)
Lemma generate_daily_plan_runs (user : UserProfile.t)
    (macrocycle : MacrocycleContext.t) (day : MicrocycleDayContext.t) :
  exists plan zones notes_zones notes_template notes_session,
    AICoach.generate_daily_plan user macrocycle day = inr plan
    /\ writes (AICoach._safe_zones user) zones notes_zones
    /\ writes (AICoach._adapt_template (MicrocycleDayContext.template day)
                 (DailyPlan.readiness_tier plan)
                 (LoadReport.zone (DailyPlan.load_risk plan)) user)
              (DailyPlan.template_final plan) notes_template
    /\ writes (AICoach._build_training_session (DailyPlan.template_final plan)
                 day macrocycle zones (DailyPlan.readiness_tier plan))
              (DailyPlan.training_session plan) notes_session
    /\ DailyPlan.adaptations plan
       = (notes_zones ++ notes_template ++ notes_session)%list
    /\ LoadManager.load_report (MicrocycleDayContext.load_history day)
       = inr (DailyPlan.load_risk plan)
    /\ DailyPlan.readiness_tier plan
       = snd (RecoveryEngine.readiness_score
                (MicrocycleDayContext.readiness_inputs day) user
                (LoadReport.zone (DailyPlan.load_risk plan))).
Proof.
  destruct (writes_safe_zones user) as (zones & nz & Hz & _).
  destruct (load_report_returns (MicrocycleDayContext.load_history day))
    as [load Hload].
  destruct (RecoveryEngine.readiness_score
              (MicrocycleDayContext.readiness_inputs day) user
              (LoadReport.zone load)) as [score tier] eqn:Hscore.
  destruct (writes_adapt_template (MicrocycleDayContext.template day) tier
              (LoadReport.zone load) user) as (final & nt & Ht).
  destruct (writes_build_training_session final day macrocycle zones tier)
    as (session & ns & Hs).
  eexists _, zones, nz, nt, ns.
  split.
  { unfold AICoach.generate_daily_plan, AICoach.plan_steps, bind.
    rewrite Hz. unfold lift at 1. rewrite Hload, Hscore, Ht, Hs.
    unfold ret. reflexivity. }
  cbn [DailyPlan.readiness_tier DailyPlan.load_risk DailyPlan.template_final
       DailyPlan.training_session DailyPlan.adaptations].
  rewrite Hscore.
  repeat split; try assumption.
  simpl. rewrite app_assoc. reflexivity.
Qed.

(** C1, counterexample. With the injury flag set, Threshold requested,
    four hours of poor sleep and a load history whose last week is far
    above the earlier three, readiness is low and the ACWR zone is high:
    the final template is "Rest", not "Recovery". *)
Lemma injury_threshold_can_end_in_rest :
  exists plan,
    AICoach.generate_daily_plan injured_user sample_macro overloaded_day
    = inr plan
    /\ UserProfile.injury_flag injured_user = true
    /\ MicrocycleDayContext.template overloaded_day = "Threshold"
    /\ DailyPlan.readiness_tier plan = "low"
    /\ LoadReport.zone (DailyPlan.load_risk plan) = "high"
    /\ DailyPlan.template_final plan = "Rest"
    /\ DailyPlan.template_final plan <> "Recovery".
Proof.
  eexists. split; [vm_compute; reflexivity|].
  repeat split. discriminate.
Qed.

(** C1, amended. With the injury flag set and "Threshold" requested,
    [generate_daily_plan] returns a plan whose adaptations contain the
    injury-downgrade note, and whose final template is "Rest" when the
    readiness tier is "low" and the ACWR zone is "high", and "Recovery"
    in every other case. *)
Theorem injury_threshold_plan (user : UserProfile.t)
    (macrocycle : MacrocycleContext.t) (day : MicrocycleDayContext.t) :
  UserProfile.injury_flag user = true ->
  MicrocycleDayContext.template day = "Threshold" ->
  exists plan,
    AICoach.generate_daily_plan user macrocycle day = inr plan
    /\ In "Injury flag set; downgrading to Recovery."
          (DailyPlan.adaptations plan)
    /\ (DailyPlan.readiness_tier plan = "low"
        /\ LoadReport.zone (DailyPlan.load_risk plan) = "high" ->
        DailyPlan.template_final plan = "Rest")
    /\ (~ (DailyPlan.readiness_tier plan = "low"
           /\ LoadReport.zone (DailyPlan.load_risk plan) = "high") ->
        DailyPlan.template_final plan = "Recovery").
Proof.
  intros Hinj Htpl.
  destruct (generate_daily_plan_runs user macrocycle day)
    as (plan & zones & nz & nt & ns & Hrun & _ & Ht & _ & Hads & _).
  rewrite Htpl in Ht.
  destruct (writes_adapt_template_injury_threshold
              (DailyPlan.readiness_tier plan)
              (LoadReport.zone (DailyPlan.load_risk plan)) user Hinj)
    as [rest Hexp].
  destruct (writes_functional _ _ _ _ _ Ht Hexp) as [Hfinal Hnotes].
  exists plan. split; [exact Hrun|]. split.
  { rewrite Hads, Hnotes. apply in_or_app. right.
    apply in_or_app. left. left. reflexivity. }
  rewrite Hfinal. split.
  - intros [Hlow Hhigh]. rewrite Hlow, Hhigh. reflexivity.
  - intro Hnot.
    destruct (DailyPlan.readiness_tier plan ==s "low") eqn:E1;
      [|reflexivity].
    destruct (LoadReport.zone (DailyPlan.load_risk plan) ==s "high") eqn:E2;
      [|reflexivity].
    apply String.eqb_eq in E1, E2. exfalso. apply Hnot. split; assumption.
Qed.

Lemma injury_threshold_plan_witness :
  exists plan,
    AICoach.generate_daily_plan injured_user sample_macro sample_day
    = inr plan
    /\ In "Injury flag set; downgrading to Recovery."
          (DailyPlan.adaptations plan).
Proof.
  destruct (injury_threshold_plan injured_user sample_macro sample_day
              ltac:(reflexivity) ltac:(reflexivity))
    as (plan & Hrun & Hnote & _).
  exists plan. split; assumption.
Defined.

(** C6. [heart_rate_zones] raises exactly when its max heart rate is
    absent or zero.  [generate_daily_plan] returns a plan for every
    input: when the profile's max heart rate is absent or zero,
    [_safe_zones] derives the zones from 190 and appends the note about
    the default, and that note is in the plan's adaptations. *)
Theorem missing_max_hr_only_fails_direct_use :
  (forall max_hr resting_hr : option Z,
      (exists e, PhysiologyEngine.heart_rate_zones max_hr resting_hr = inl e)
      <-> (max_hr = None \/ max_hr = Some 0))
  /\ (forall (user : UserProfile.t) (macrocycle : MacrocycleContext.t)
             (day : MicrocycleDayContext.t),
         exists plan,
           AICoach.generate_daily_plan user macrocycle day = inr plan
           /\ (UserProfile.max_hr user = None
               \/ UserProfile.max_hr user = Some 0 ->
               In "Missing max_hr; defaulting to 190 bpm for zone calc."
                  (DailyPlan.adaptations plan)
               /\ exists zones,
                    PhysiologyEngine.heart_rate_zones (Some 190)
                      (UserProfile.resting_hr user) = inr zones
                    /\ forall ads,
                         AICoach._safe_zones user ads
                         = inr (zones,
                                (ads ++ ["Missing max_hr; defaulting to 190 bpm for zone calc."])%list))).
Proof.
  split.
  - intros max_hr resting_hr.
    rewrite heart_rate_zones_raises_iff. apply truthy_false_iff.
  - intros user macrocycle day.
    destruct (generate_daily_plan_runs user macrocycle day)
      as (plan & zones & nz & nt & ns & Hrun & Hz & _ & _ & Hads & _).
    exists plan. split; [exact Hrun|].
    intro Hmissing. apply truthy_false_iff in Hmissing.
    destruct (writes_safe_zones user) as (zones' & nz' & Hz' & Hdefault & _).
    destruct (writes_functional _ _ _ _ _ Hz Hz') as [<- <-].
    destruct (Hdefault Hmissing) as [Hnote H190].
    split.
    + rewrite Hads, Hnote. left. reflexivity.
    + exists zones. split; [exact H190|].
      intro ads. rewrite (Hz ads), Hnote. reflexivity.
Qed.

Lemma missing_max_hr_only_fails_direct_use_witness :
  exists plan,
    AICoach.generate_daily_plan no_max_hr_user sample_macro sample_day
    = inr plan
    /\ In "Missing max_hr; defaulting to 190 bpm for zone calc."
          (DailyPlan.adaptations plan).
Proof.
  destruct missing_max_hr_only_fails_direct_use as [_ Hplan].
  destruct (Hplan no_max_hr_user sample_macro sample_day)
    as (plan & Hrun & Hmissing).
  exists plan. split; [exact Hrun|].
  apply Hmissing. left. reflexivity.
Defined.

(** ** More on rounding *)

Lemma round_floor_or_next (x : Q) :
  Py.round x = Qfloor x \/ Py.round x = Qfloor x + 1.
Proof.
  unfold Py.round.
  destruct (x - inject_Z (Qfloor x) ?= 1 # 2)%Q; [|left|right]; try reflexivity.
  destruct (Z.even (Qfloor x)); [left|right]; reflexivity.
Qed.

Lemma round_within_half (x : Q) :
  (inject_Z (Py.round x) - (1 # 2) <= x
   /\ x <= inject_Z (Py.round x) + (1 # 2))%Q.
Proof.
  pose proof (Qfloor_le x) as Hlo.
  pose proof (Qlt_floor x) as Hhi.
  rewrite inject_Z_plus in Hhi. change (inject_Z 1) with 1%Q in Hhi.
  unfold Py.round.
  destruct (Qcompare_spec (x - inject_Z (Qfloor x)) (1 # 2)) as [He|Hl|Hg].
  - destruct (Z.even (Qfloor x)); rewrite ?inject_Z_plus;
      change (inject_Z 1) with 1%Q; split; lra.
  - split; lra.
  - rewrite inject_Z_plus. change (inject_Z 1) with 1%Q. split; lra.
Qed.

Lemma round_monotone (x y : Q) : (x <= y)%Q -> Py.round x <= Py.round y.
Proof.
  intro Hxy.
  pose proof (Qfloor_resp_le x y Hxy) as Hfl.
  destruct (Z.eq_dec (Qfloor x) (Qfloor y)) as [Heq|Hne].
  - unfold Py.round. rewrite Heq.
    destruct (Qcompare_spec (x - inject_Z (Qfloor y)) (1 # 2));
      destruct (Qcompare_spec (y - inject_Z (Qfloor y)) (1 # 2));
      try destruct (Z.even (Qfloor y));
      first [lia | exfalso; lra].
  - destruct (round_floor_or_next x) as [-> | ->];
      destruct (round_floor_or_next y) as [-> | ->]; lia.
Qed.

Lemma round_le_Z (x : Q) (n : Z) : (x <= inject_Z n)%Q -> Py.round x <= n.
Proof.
  intro H. rewrite <- (round_inject_Z n). apply round_monotone. exact H.
Qed.

Lemma round_ge_Z (x : Q) (n : Z) : (inject_Z n <= x)%Q -> n <= Py.round x.
Proof.
  intro H. rewrite <- (round_inject_Z n) at 1. apply round_monotone. exact H.
Qed.

Lemma round_unique (x : Q) (n : Z) :
  (inject_Z n - (1 # 2) < x)%Q -> (x < inject_Z n + (1 # 2))%Q ->
  Py.round x = n.
Proof.
  intros Hlo Hhi.
  destruct (round_within_half x) as [Hr1 Hr2].
  assert (H1 : (inject_Z (Py.round x) < inject_Z (n + 1))%Q)
    by (rewrite inject_Z_plus; change (inject_Z 1) with 1%Q; lra).
  assert (H2 : (inject_Z n < inject_Z (Py.round x + 1))%Q)
    by (rewrite inject_Z_plus; change (inject_Z 1) with 1%Q; lra).
  rewrite <- Zlt_Qlt in H1, H2. lia.
Qed.

(** ** PhysiologyEngine: the shape of the bands *)

(** X1. Whenever a max heart rate is supplied, [heart_rate_zones] returns
    five bands that are ordered and contiguous: each band's lower edge is
    at most its upper edge, and each band starts where the one below
    ends.  No edge lies below the resting rate used, and when the max
    heart rate exceeds that resting rate the top of Z5 is the max heart
    rate itself. *)
Theorem heart_rate_zones_ordered (max_hr : Z) (resting_hr : option Z) :
  max_hr <> 0 ->
  exists zones,
    PhysiologyEngine.heart_rate_zones (Some max_hr) resting_hr = inr zones
    /\ Py.or_default resting_hr 60 <= fst (Z1 zones)
    /\ fst (Z1 zones) <= snd (Z1 zones) /\ snd (Z1 zones) = fst (Z2 zones)
    /\ fst (Z2 zones) <= snd (Z2 zones) /\ snd (Z2 zones) = fst (Z3 zones)
    /\ fst (Z3 zones) <= snd (Z3 zones) /\ snd (Z3 zones) = fst (Z4 zones)
    /\ fst (Z4 zones) <= snd (Z4 zones) /\ snd (Z4 zones) = fst (Z5 zones)
    /\ fst (Z5 zones) <= snd (Z5 zones)
    /\ (Py.or_default resting_hr 60 < max_hr -> snd (Z5 zones) = max_hr).
Proof.
  intro Hnz. unfold PhysiologyEngine.heart_rate_zones.
  assert (Ht : Py.truthy (Some max_hr) = true)
    by (simpl; apply negb_true_iff, Z.eqb_neq; exact Hnz).
  rewrite Ht. cbn [negb]. eexists. split; [reflexivity|].
  cbn [Z1 Z2 Z3 Z4 Z5 fst snd PhysiologyEngine.zone].
  set (rhr := Py.or_default resting_hr 60).
  set (reserve := Z.max (max_hr - rhr) 1).
  assert (Hres : (1 <= inject_Z reserve)%Q)
    by (change 1%Q with (inject_Z 1); rewrite <- Zle_Qle; subst reserve; lia).
  repeat split; try reflexivity;
    try (apply round_monotone; lra).
  - apply round_ge_Z. lra.
  - intro Hgt.
    replace reserve with (max_hr - rhr) by (subst reserve; lia).
    rewrite (round_compat _ (inject_Z max_hr)); [apply round_inject_Z|].
    unfold Zminus. rewrite inject_Z_plus, inject_Z_opp. ring.
Qed.

Lemma heart_rate_zones_ordered_witness :
  exists zones,
    PhysiologyEngine.heart_rate_zones (Some 190) (Some 52) = inr zones
    /\ snd (Z5 zones) = 190.
Proof.
  destruct (heart_rate_zones_ordered 190 (Some 52) ltac:(discriminate))
    as (zones & Hrun & H).
  exists zones. split; [exact Hrun|].
  apply H. reflexivity.
Defined.

(** X2. When the max heart rate supplied does not exceed the resting rate
    used (the given one, or 60), the reserve is floored at 1 and all five
    bands collapse to the single rate one above the resting rate, which
    is then above the max heart rate. *)
Theorem heart_rate_zones_degenerate (max_hr : Z) (resting_hr : option Z) :
  max_hr <> 0 ->
  max_hr <= Py.or_default resting_hr 60 ->
  let top := Py.or_default resting_hr 60 + 1 in
  PhysiologyEngine.heart_rate_zones (Some max_hr) resting_hr
  = inr (mkHrZones (top, top) (top, top) (top, top) (top, top) (top, top))
  /\ max_hr < top.
Proof.
  intros Hnz Hle top. split; [|subst top; lia].
  unfold PhysiologyEngine.heart_rate_zones.
  assert (Ht : Py.truthy (Some max_hr) = true)
    by (simpl; apply negb_true_iff, Z.eqb_neq; exact Hnz).
  rewrite Ht. cbn [negb].
  replace (Z.max (max_hr - Py.or_default resting_hr 60) 1) with 1 by lia.
  unfold PhysiologyEngine.zone.
  assert (Hup : forall f : Q, (1 # 2 < f)%Q -> (f <= 1)%Q ->
            Py.round (inject_Z (Py.or_default resting_hr 60) + inject_Z 1 * f)
            = top).
  { intros f Hlo Hhi. apply round_unique; subst top;
      rewrite inject_Z_plus; change (inject_Z 1) with 1%Q; lra. }
  rewrite !Hup by (try reflexivity; discriminate).
  reflexivity.
Qed.

Lemma heart_rate_zones_degenerate_witness :
  PhysiologyEngine.heart_rate_zones (Some 50) None
  = inr (mkHrZones (61, 61) (61, 61) (61, 61) (61, 61) (61, 61)).
Proof.
  apply (heart_rate_zones_degenerate 50 None); [discriminate|].
  simpl. lia.
Defined.

(** ** LoadManager: non-negative histories *)

Lemma fsum_nonneg (xs : list Q) :
  Forall (fun x => 0 <= x)%Q xs -> (0 <= Py.fsum xs)%Q.
Proof.
  induction 1 as [|x xs Hx _ IH]; simpl; [discriminate | lra].
Qed.

Lemma Forall_skipn_nonneg (k : nat) (xs : list Q) :
  Forall (fun x => 0 <= x)%Q xs -> Forall (fun x => 0 <= x)%Q (skipn k xs).
Proof.
  intro H. revert k. induction H as [|x xs Hx Hxs IH]; intros [|k]; simpl;
    try constructor; auto.
Qed.

Lemma fsum_skipn_le (k : nat) (xs : list Q) :
  Forall (fun x => 0 <= x)%Q xs -> (Py.fsum (skipn k xs) <= Py.fsum xs)%Q.
Proof.
  intro H. revert k. induction H as [|x xs Hx Hxs IH]; intros [|k]; simpl;
    try lra.
  specialize (IH k). lra.
Qed.

Lemma mean_ratio_bound (s7 sw : Q) (n7 nw : Z) :
  (0 <= s7)%Q -> (s7 <= sw)%Q -> 0 < n7 -> n7 <= nw -> nw <= 4 * n7 ->
  let a := (s7 / inject_Z n7)%Q in
  let c := (sw / inject_Z nw)%Q in
  (c <= 0 -> a <= 0)%Q /\ (0 < c -> 0 <= a / c /\ a / c <= 4)%Q.
Proof.
  intros H0 Hle Hn7 Hnw H4 a c.
  assert (Q7 : (0 < inject_Z n7)%Q)
    by (change 0%Q with (inject_Z 0); rewrite <- Zlt_Qlt; exact Hn7).
  assert (Qw : (inject_Z n7 <= inject_Z nw)%Q) by (rewrite <- Zle_Qle; exact Hnw).
  assert (Q4 : (inject_Z nw <= 4 * inject_Z n7)%Q).
  { change 4%Q with (inject_Z 4). rewrite <- inject_Z_mult, <- Zle_Qle.
    exact H4. }
  assert (Ea : (a * inject_Z n7 == s7)%Q) by (subst a; field; lra).
  assert (Ec : (c * inject_Z nw == sw)%Q) by (subst c; field; lra).
  clearbody a c.
  assert (Ha : (0 <= a)%Q).
  { apply (Qmult_lt_0_le_reg_r _ _ (inject_Z n7) Q7). lra. }
  assert (Hc : (0 <= c)%Q).
  { apply (Qmult_lt_0_le_reg_r _ _ (inject_Z nw)); lra. }
  assert (Hac : (a <= 4 * c)%Q).
  { apply (Qmult_lt_0_le_reg_r _ _ (inject_Z n7) Q7).
    assert (Hm : (c * inject_Z nw <= c * (4 * inject_Z n7))%Q).
    { rewrite !(Qmult_comm c). apply Qmult_le_compat_r; assumption. }
    lra. }
  split.
  - intro Hc0. lra.
  - intro Hpos. split.
    + apply Qle_shift_div_l; lra.
    + apply Qle_shift_div_r; lra.
Qed.

(** X3. On a history of non-negative loads the ratio is never infinite:
    [compute_acute_chronic] returns, and [compute_acwr] of its result is a
    finite value between 0 and 4. *)
Theorem acwr_bounded_on_nonnegative_history (h : list Q) :
  Forall (fun x => 0 <= x)%Q h ->
  exists acute chronic q,
    LoadManager.compute_acute_chronic h = inr (acute, chronic)
    /\ LoadManager.compute_acwr acute chronic = Finite q
    /\ (0 <= q)%Q /\ (q <= 4)%Q.
Proof.
  intro Hh.
  destruct h as [|x h'].
  { exists 0%Q, 0%Q, 0%Q.
    split; [reflexivity|]. split; [reflexivity|]. split; lra. }
  set (h := x :: h') in *.
  assert (Hlen : (0 < List.length h)%nat) by (simpl; lia).
  rewrite compute_acute_chronic_nonempty by discriminate.
  rewrite <- !slice_last_is_last_entries.
  set (window := if (List.length h <? 28)%nat then h else Py.slice_last 28 h).
  set (k := if (List.length h <? 28)%nat then 0%nat
            else (List.length h - 28)%nat).
  assert (Hwin : window = skipn k h).
  { subst window k. destruct (List.length h <? 28)%nat; reflexivity. }
  assert (Hk : (k <= List.length h - 7)%nat).
  { subst k. destruct (List.length h <? 28)%nat eqn:E; [lia|].
    apply Nat.ltb_ge in E. lia. }
  assert (Hlast : Py.slice_last 7 h
                  = skipn (List.length h - 7 - k) window).
  { rewrite Hwin, skipn_skipn. unfold Py.slice_last. f_equal. lia. }
  assert (Hwnn : Forall (fun x => 0 <= x)%Q window)
    by (rewrite Hwin; apply Forall_skipn_nonneg; exact Hh).
  assert (Hlw : List.length window = (List.length h - k)%nat)
    by (rewrite Hwin; apply length_skipn).
  assert (Hl7 : List.length (Py.slice_last 7 h)
                = (List.length h - (List.length h - 7))%nat)
    by (unfold Py.slice_last; apply length_skipn).
  assert (Hkw : (k = 0 /\ List.length h < 28 \/ List.length h - k = 28)%nat).
  { subst k. destruct (List.length h <? 28)%nat eqn:E.
    - apply Nat.ltb_lt in E. left. split; [reflexivity | exact E].
    - apply Nat.ltb_ge in E. right. lia. }
  destruct (mean_ratio_bound
              (Py.fsum (Py.slice_last 7 h)) (Py.fsum window)
              (Z.of_nat (List.length (Py.slice_last 7 h)))
              (Z.of_nat (List.length window)))
    as [Hzero Hpos].
  - apply fsum_nonneg. rewrite Hlast. apply Forall_skipn_nonneg. exact Hwnn.
  - rewrite Hlast. apply fsum_skipn_le. exact Hwnn.
  - lia.
  - lia.
  - lia.
  - fold (arithmetic_mean (Py.slice_last 7 h)) in Hzero, Hpos.
    fold (arithmetic_mean window) in Hzero, Hpos.
    unfold Py.fsum in Hzero, Hpos.
    fold (arithmetic_mean (Py.slice_last 7 h)) in Hzero, Hpos.
    fold (arithmetic_mean window) in Hzero, Hpos.
    set (acute := arithmetic_mean (Py.slice_last 7 h)) in *.
    set (chronic := arithmetic_mean window) in *.
    destruct (Qlt_le_dec 0 chronic) as [Hc|Hc].
    + destruct (Hpos Hc) as [H0 H4].
      exists acute, chronic, (acute / chronic)%Q.
      split; [reflexivity|]. split; [|split; assumption].
      unfold LoadManager.compute_acwr.
      qcases; try reflexivity; exfalso; lra.
    + specialize (Hzero Hc).
      exists acute, chronic, 0%Q.
      split; [reflexivity|]. split; [|split; lra].
      unfold LoadManager.compute_acwr.
      qcases; try reflexivity; exfalso; lra.
Qed.

Lemma acwr_bounded_on_nonnegative_history_witness :
  exists acute chronic q,
    LoadManager.compute_acute_chronic sample_load_history
    = inr (acute, chronic)
    /\ LoadManager.compute_acwr acute chronic = Finite q
    /\ (0 <= q)%Q /\ (q <= 4)%Q.
Proof.
  apply (acwr_bounded_on_nonnegative_history sample_load_history).
  repeat constructor; discriminate.
Defined.

(** ** LoadManager: the report *)

Lemma classify_acwr_four_zones (acwr : pyfloat) :
  LoadManager.classify_acwr acwr = "underload"
  \/ LoadManager.classify_acwr acwr = "optimal"
  \/ LoadManager.classify_acwr acwr = "elevated"
  \/ LoadManager.classify_acwr acwr = "high".
Proof.
  destruct acwr as [q|].
  - rewrite classify_acwr_finite. qcases; tauto.
  - right. right. right. reflexivity.
Qed.

(** X4. [load_report] returns a report for every history, and the report
    pairs each of the four zones with its own recommendation: "underload"
    with the advice to increase load, "optimal" with the advice to
    maintain it, "elevated" with the advice to hold, and "high" with the
    advice to recover. *)
Theorem load_report_zone_and_recommendation (h : list Q) :
  exists report,
    LoadManager.load_report h = inr report
    /\ ((LoadReport.zone report = "underload"
         /\ LoadReport.recommendation report
            = "Increase load gradually (5-10%) to avoid detraining.")
        \/ (LoadReport.zone report = "optimal"
            /\ LoadReport.recommendation report
               = "Maintain progressive overload.")
        \/ (LoadReport.zone report = "elevated"
            /\ LoadReport.recommendation report
               = "Hold or slightly reduce load; avoid stacking hard days.")
        \/ (LoadReport.zone report = "high"
            /\ LoadReport.recommendation report
               = "Prioritize recovery; cap intensity until ACWR is back in range.")).
Proof.
  unfold LoadManager.load_report.
  assert (Hret : exists acute chronic,
             LoadManager.compute_acute_chronic h = inr (acute, chronic)).
  { destruct h as [|x h'].
    - eexists _, _. reflexivity.
    - rewrite compute_acute_chronic_nonempty by discriminate.
      eexists _, _. reflexivity. }
  destruct Hret as (acute & chronic & ->).
  eexists. split; [reflexivity|].
  cbn [LoadReport.zone LoadReport.recommendation].
  destruct (classify_acwr_four_zones (LoadManager.compute_acwr acute chronic))
    as [-> | [-> | [-> | ->]]]; cbn; tauto.
Qed.

Lemma Forall_skipn_any {A} (P : A -> Prop) (k : nat) (xs : list A) :
  Forall P xs -> Forall P (skipn k xs).
Proof.
  intro H. revert k. induction H as [|x xs Hx Hxs IH]; intros [|k]; simpl;
    try constructor; auto.
Qed.

Lemma arithmetic_mean_zero (xs : list Q) :
  Forall (fun x => x == 0) xs -> arithmetic_mean xs == 0.
Proof.
  intro H. unfold arithmetic_mean.
  assert (Hs : fold_right Qplus 0%Q xs == 0).
  { induction H as [|x xs Hx _ IH]; simpl; [reflexivity|].
    rewrite Hx, IH. reflexivity. }
  rewrite Hs. unfold Qdiv. ring.
Qed.

(** X5. A history that holds nothing but zeros, the empty history
    included, is reported with an ACWR of 0 and the zone "underload",
    with the advice to increase load. *)
Theorem load_report_all_zero_is_underload (h : list Q) :
  Forall (fun x => x == 0) h ->
  exists report q,
    LoadManager.load_report h = inr report
    /\ LoadReport.acwr report = Finite q /\ q == 0
    /\ LoadReport.zone report = "underload"
    /\ LoadReport.recommendation report
       = "Increase load gradually (5-10%) to avoid detraining.".
Proof.
  intro Hz.
  assert (Hret : exists acute chronic,
             LoadManager.compute_acute_chronic h = inr (acute, chronic)
             /\ acute == 0 /\ chronic == 0).
  { destruct h as [|x h'].
    - exists 0%Q, 0%Q. repeat split; reflexivity.
    - rewrite compute_acute_chronic_nonempty by discriminate.
      eexists _, _. split; [reflexivity|].
      rewrite <- !slice_last_is_last_entries.
      split; apply arithmetic_mean_zero.
      + apply Forall_skipn_any. exact Hz.
      + destruct (List.length (x :: h') <? 28)%nat;
          [exact Hz | apply Forall_skipn_any; exact Hz]. }
  destruct Hret as (acute & chronic & Hrun & Ha & Hc).
  unfold LoadManager.load_report. rewrite Hrun.
  assert (Hacwr : LoadManager.compute_acwr acute chronic = Finite 0).
  { unfold LoadManager.compute_acwr.
    qcases; try reflexivity; exfalso; lra. }
  rewrite Hacwr.
  eexists _, _. split; [reflexivity|].
  cbn. repeat split.
Qed.

Lemma load_report_all_zero_is_underload_witness :
  exists report q,
    LoadManager.load_report [] = inr report
    /\ LoadReport.acwr report = Finite q /\ q == 0
    /\ LoadReport.zone report = "underload"
    /\ LoadReport.recommendation report
       = "Increase load gradually (5-10%) to avoid detraining.".
Proof.
  apply (load_report_all_zero_is_underload []). constructor.
Defined.

(** ** NutritionEngine: bands and tiers *)

Lemma Qle_bool_inject_Z (a b : Z) :
  Qle_bool (inject_Z a) (inject_Z b) = (a <=? b).
Proof. unfold Qle_bool. simpl. rewrite !Z.mul_1_r. reflexivity. Qed.

(** X6. For every whole-minute duration from 0 to 300 exactly one band
    applies and [_intra_fueling] uses it: 0-59 gives 0 g/h with water,
    60-89 gives 30 g/h, 90-180 gives 60 g/h (70 g/h in zone Z4 or Z5)
    and 181-300 gives 90 g/h, each with the band's own fluids and
    electrolytes. *)
Theorem intra_fueling_whole_minutes (d : Z) (intensity_zone : string) :
  0 <= d <= 300 ->
  let plan := NutritionEngine._intra_fueling (inject_Z d) intensity_zone in
  (d <= 59 ->
   IntraRun.carbs_g_per_hour plan = 0%Q
   /\ IntraRun.fluids plan = "Water"
   /\ IntraRun.electrolytes_mg_per_l plan = 300)
  /\ (60 <= d <= 89 ->
      IntraRun.carbs_g_per_hour plan = 30%Q
      /\ IntraRun.fluids plan = "Water + electrolytes"
      /\ IntraRun.electrolytes_mg_per_l plan = 400)
  /\ (90 <= d <= 180 ->
      IntraRun.carbs_g_per_hour plan
      = (if Py.in_set intensity_zone ["Z4"; "Z5"] then 70%Q else 60%Q)
      /\ IntraRun.fluids plan = "Carb mix (glucose/fructose) + electrolytes"
      /\ IntraRun.electrolytes_mg_per_l plan = 500)
  /\ (181 <= d ->
      IntraRun.carbs_g_per_hour plan = 90%Q
      /\ IntraRun.fluids plan = "High-carb mix + electrolytes"
      /\ IntraRun.electrolytes_mg_per_l plan = 600).
Proof.
  intros Hd plan. subst plan.
  unfold NutritionEngine._intra_fueling, NutritionEngine.select_rule,
    INTRA_CARB_RULES, NutritionEngine.in_band.
  cbn [find hd min_minutes max_minutes].
  change 0%Q with (inject_Z 0). change 59%Q with (inject_Z 59).
  change 60%Q with (inject_Z 60). change 89%Q with (inject_Z 89).
  change 90%Q with (inject_Z 90). change 180%Q with (inject_Z 180).
  change 181%Q with (inject_Z 181). change 300%Q with (inject_Z 300).
  rewrite !Qle_bool_inject_Z.
  destruct (Py.in_set intensity_zone ["Z4"; "Z5"]);
    (split; [|split; [|split]]); intros;
    repeat match goal with
    | |- context [?a <=? ?b] =>
        let E := fresh "E" in
        destruct (a <=? b) eqn:E;
        [apply Z.leb_le in E | apply Z.leb_gt in E]; try lia
    end;
    cbn; repeat split.
Qed.

Lemma intra_fueling_whole_minutes_witness :
  IntraRun.carbs_g_per_hour (NutritionEngine._intra_fueling (inject_Z 120) "Z4")
  = 70%Q
  /\ IntraRun.fluids (NutritionEngine._intra_fueling (inject_Z 120) "Z4")
     = "Carb mix (glucose/fructose) + electrolytes"
  /\ IntraRun.electrolytes_mg_per_l
       (NutritionEngine._intra_fueling (inject_Z 120) "Z4") = 500.
Proof.
  destruct (intra_fueling_whole_minutes 120 "Z4" ltac:(lia))
    as (_ & _ & H & _).
  apply H. lia.
Defined.

(** X7. A duration that falls between two bands or below the first one
    (negative, strictly between 59 and 60, or strictly between 89 and 90
    minutes) gets the first band's rule in every zone: 0 g/h of carbs,
    water and 300 mg/L, so 89.5 minutes is fuelled like a short run while
    89 minutes gets 30 g/h. *)
Theorem intra_fueling_between_bands (duration : Q) (intensity_zone : string) :
  (duration < 0 \/ (59 < duration /\ duration < 60)
   \/ (89 < duration /\ duration < 90))%Q ->
  let plan := NutritionEngine._intra_fueling duration intensity_zone in
  IntraRun.carbs_g_per_hour plan = 0%Q
  /\ IntraRun.fluids plan = "Water"
  /\ IntraRun.electrolytes_mg_per_l plan = 300
  /\ IntraRun.notes plan = "Water as thirst dictates; add electrolytes in heat.".
Proof.
  intros Hgap plan. subst plan.
  assert (Hout : outside_all_bands duration).
  { intros rule Hin [Hlo Hhi]. simpl in Hin.
    destruct Hin as [<-|[<-|[<-|[<-|[]]]]]; simpl in Hlo, Hhi; lra. }
  unfold NutritionEngine._intra_fueling.
  rewrite (select_rule_outside duration Hout). cbv zeta.
  assert (H90 : Qle_bool 90 duration = false)
    by (apply Qle_bool_false; lra).
  rewrite H90, andb_false_r.
  repeat split.
Qed.

Lemma intra_fueling_between_bands_witness :
  IntraRun.carbs_g_per_hour (NutritionEngine._intra_fueling (179 # 2) "Z5")
  = 0%Q
  /\ IntraRun.carbs_g_per_hour (NutritionEngine._intra_fueling 89 "Z5")
     = 30%Q.
Proof.
  split; [|reflexivity].
  apply (intra_fueling_between_bands (179 # 2) "Z5").
  right. right. split; reflexivity.
Defined.

Lemma round_nd_monotone (x y : Q) (n : nat) :
  (x <= y)%Q -> (Py.round_nd x n <= Py.round_nd y n)%Q.
Proof.
  intro H. unfold Py.round_nd.
  assert (Hs : (0 < inject_Z (10 ^ Z.of_nat n))%Q).
  { change 0%Q with (inject_Z 0). rewrite <- Zlt_Qlt.
    apply Z.pow_pos_nonneg; lia. }
  apply Qmult_le_compat_r.
  - rewrite <- Zle_Qle. apply round_monotone.
    apply Qmult_le_compat_r; lra.
  - apply Qlt_le_weak, Qinv_lt_0_compat. exact Hs.
Qed.

(** X8. Post-run protein does not depend on the duration, and for a
    non-negative body weight the post-run carbs never go down when the
    session gets longer. *)
Theorem post_fueling_monotone (d1 d2 weight_kg : Q) :
  (0 <= weight_kg)%Q -> (d1 <= d2)%Q ->
  PostRun.protein_g (NutritionEngine._post_fueling d1 weight_kg)
  = PostRun.protein_g (NutritionEngine._post_fueling d2 weight_kg)
  /\ (PostRun.carbs_g (NutritionEngine._post_fueling d1 weight_kg)
      <= PostRun.carbs_g (NutritionEngine._post_fueling d2 weight_kg))%Q.
Proof.
  intros Hw Hd. split; [reflexivity|].
  unfold NutritionEngine._post_fueling.
  cbn [PostRun.carbs_g].
  apply round_nd_monotone.
  change (POST_RUN_CARB_G_PER_KG "long") with 1%Q.
  change (POST_RUN_CARB_G_PER_KG "medium") with (8 # 10).
  change (POST_RUN_CARB_G_PER_KG "short") with (6 # 10).
  qcases; try lra; exfalso; lra.
Qed.

Lemma post_fueling_monotone_witness :
  (PostRun.carbs_g (NutritionEngine._post_fueling 45 68)
   <= PostRun.carbs_g (NutritionEngine._post_fueling 46 68))%Q.
Proof.
  apply (post_fueling_monotone 45 46 68); discriminate.
Defined.

(** ** RecoveryEngine: what moves the score *)

Lemma clamp_monotone (x y lower upper : Q) :
  (x <= y)%Q -> (clamp x lower upper <= clamp y lower upper)%Q.
Proof.
  intro H. unfold clamp, Py.max, Py.min. qcases; lra.
Qed.

(** X9. Between two sets of readiness inputs that agree on resting heart
    rate and HRV change, the one with no more sleep, no better sleep
    quality, no less soreness, no less stress and no more mental energy
    never scores higher, for the same profile and load zone. *)
Theorem readiness_score_monotone (a b : DailyReadinessInputs.t)
    (user : UserProfile.t) (load_zone : string) :
  (DailyReadinessInputs.sleep_hours b <= DailyReadinessInputs.sleep_hours a)%Q ->
  DailyReadinessInputs.sleep_quality b <= DailyReadinessInputs.sleep_quality a ->
  DailyReadinessInputs.soreness a <= DailyReadinessInputs.soreness b ->
  DailyReadinessInputs.stress a <= DailyReadinessInputs.stress b ->
  DailyReadinessInputs.mental_energy b <= DailyReadinessInputs.mental_energy a ->
  DailyReadinessInputs.resting_hr a = DailyReadinessInputs.resting_hr b ->
  DailyReadinessInputs.hrv_change_ms a = DailyReadinessInputs.hrv_change_ms b ->
  (fst (RecoveryEngine.readiness_score b user load_zone)
   <= fst (RecoveryEngine.readiness_score a user load_zone))%Q.
Proof.
  destruct a as [sh1 sq1 so1 st1 me1 rhr1 hrv1].
  destruct b as [sh2 sq2 so2 st2 me2 rhr2 hrv2].
  cbn [DailyReadinessInputs.sleep_hours DailyReadinessInputs.sleep_quality
       DailyReadinessInputs.soreness DailyReadinessInputs.stress
       DailyReadinessInputs.mental_energy DailyReadinessInputs.resting_hr
       DailyReadinessInputs.hrv_change_ms].
  intros Hsh Hsq Hso Hst Hme <- <-.
  unfold RecoveryEngine.readiness_score.
  cbn [DailyReadinessInputs.sleep_hours DailyReadinessInputs.sleep_quality
       DailyReadinessInputs.soreness DailyReadinessInputs.stress
       DailyReadinessInputs.mental_energy DailyReadinessInputs.resting_hr
       DailyReadinessInputs.hrv_change_ms].
  cbv zeta. cbn [fst].
  apply clamp_monotone.
  assert (Qsq : (inject_Z (sq2 - 7) <= inject_Z (sq1 - 7))%Q)
    by (rewrite <- Zle_Qle; lia).
  assert (Qso : (inject_Z (so1 - 3) <= inject_Z (so2 - 3))%Q)
    by (rewrite <- Zle_Qle; lia).
  assert (Qst : (inject_Z (st1 - 3) <= inject_Z (st2 - 3))%Q)
    by (rewrite <- Zle_Qle; lia).
  assert (Qme : (inject_Z (me2 - 5) <= inject_Z (me1 - 5))%Q)
    by (rewrite <- Zle_Qle; lia).
  generalize dependent (inject_Z (sq2 - 7)).
  generalize dependent (inject_Z (sq1 - 7)).
  generalize dependent (inject_Z (so2 - 3)).
  generalize dependent (inject_Z (so1 - 3)).
  generalize dependent (inject_Z (st2 - 3)).
  generalize dependent (inject_Z (st1 - 3)).
  generalize dependent (inject_Z (me2 - 5)).
  generalize dependent (inject_Z (me1 - 5)).
  intros.
  destruct (Py.truthy rhr1 && Py.truthy (UserProfile.resting_hr user));
    [destruct (0 <? _)|];
    destruct hrv1 as [hrv|];
    destruct (Py.in_set load_zone ["elevated"; "high"]);
    destruct (UserProfile.injury_flag user);
    unfold Py.max; qcases; lra.
Qed.

Lemma readiness_score_monotone_witness :
  (fst (RecoveryEngine.readiness_score
          (DailyReadinessInputs.mk (65 # 10) 7%Z 6%Z 5%Z 6%Z (Some 56%Z)
             (Some (-5)%Q))
          sample_user "optimal")
   <= fst (RecoveryEngine.readiness_score readiness_inputs sample_user
             "optimal"))%Q.
Proof.
  apply readiness_score_monotone; simpl; try lia; try reflexivity.
  discriminate.
Defined.

(** X10. The two flat penalties never raise the score: for the same
    inputs, a profile with the injury flag set scores no higher than the
    same profile without it, and an "elevated" or "high" load zone scores
    no higher than any other zone. *)
Theorem readiness_penalties_never_raise (inputs : DailyReadinessInputs.t)
    (user : UserProfile.t) (zone zone' : string) :
  (fst (RecoveryEngine.readiness_score inputs (with_injury_flag true user) zone)
   <= fst (RecoveryEngine.readiness_score inputs
             (with_injury_flag false user) zone))%Q
  /\ (Py.in_set zone' ["elevated"; "high"] = true ->
      (fst (RecoveryEngine.readiness_score inputs user zone')
       <= fst (RecoveryEngine.readiness_score inputs user zone))%Q).
Proof.
  split; [|intro Hz].
  - unfold RecoveryEngine.readiness_score, with_injury_flag.
    cbn [UserProfile.resting_hr UserProfile.injury_flag].
    cbv zeta. cbn [fst]. apply clamp_monotone.
    destruct (Py.truthy _ && Py.truthy _); [destruct (0 <? _)|];
      destruct (DailyReadinessInputs.hrv_change_ms inputs) as [hrv|];
      destruct (Py.in_set zone ["elevated"; "high"]);
      qcases; lra.
  - unfold RecoveryEngine.readiness_score.
    cbv zeta. cbn [fst]. rewrite Hz. apply clamp_monotone.
    destruct (Py.truthy _ && Py.truthy _); [destruct (0 <? _)|];
      destruct (DailyReadinessInputs.hrv_change_ms inputs) as [hrv|];
      destruct (Py.in_set zone ["elevated"; "high"]);
      destruct (UserProfile.injury_flag user);
      qcases; lra.
Qed.

Lemma readiness_penalties_never_raise_witness :
  (fst (RecoveryEngine.readiness_score readiness_inputs sample_user "high")
   <= fst (RecoveryEngine.readiness_score readiness_inputs sample_user
             "optimal"))%Q.
Proof.
  destruct (readiness_penalties_never_raise readiness_inputs sample_user
              "optimal" "high") as [_ H].
  apply H. reflexivity.
Defined.

(** ** RecoveryEngine: the protocol *)

Lemma in_strings_iff (s : string) (l : list string) :
  In s l <-> Py.in_set s l = true.
Proof.
  unfold Py.in_set. rewrite existsb_exists. split.
  - intro H. exists s. split; [exact H | apply String.eqb_refl].
  - intros (x & Hin & Heq). apply String.eqb_eq in Heq. subst x. exact Hin.
Qed.

(** X11. Every recovery protocol opens with the same two base actions.
    The monitoring list asks to delay intensity exactly when readiness is
    "low" or the ACWR zone is "high"; the stability item is among the
    actions exactly for athletes of 40 or more, the soft-surface item
    exactly for novices, and the pain-free item exactly when the injury
    flag is set. *)
Theorem protocol_items (readiness_tier acwr_zone : string)
    (user : UserProfile.t) :
  let p := RecoveryEngine.protocol readiness_tier acwr_zone user in
  firstn 2 (RecoveryProtocol.actions p)
  = ["7-9h sleep, consistent bedtime";
     "Protein with every meal; colorful carbs and healthy fats"]
  /\ (In "Delay intensity until readiness improves"
         (RecoveryProtocol.monitoring p)
      <-> readiness_tier = "low" \/ acwr_zone = "high")
  /\ (In "Include extra calf/hip stability 2-3x/week; extend cooldown by 5 min"
         (RecoveryProtocol.actions p)
      <-> 40 <= UserProfile.age user)
  /\ (In "Prefer soft surfaces; focus on relaxed form cues"
         (RecoveryProtocol.actions p)
      <-> UserProfile.training_level user = "novice")
  /\ (In "Prioritize pain-free movement; skip plyometrics and downhill stress"
         (RecoveryProtocol.actions p)
      <-> UserProfile.injury_flag user = true).
Proof.
  unfold RecoveryEngine.protocol, MASTERS_AGE. cbv zeta.
  change (Py.in_set acwr_zone ["high"]) with ((acwr_zone ==s "high") || false).
  rewrite orb_false_r.
  assert (Hlow : readiness_tier = "low" \/ acwr_zone = "high"
                 <-> (readiness_tier ==s "low") || (acwr_zone ==s "high") = true)
    by (rewrite orb_true_iff, !String.eqb_eq; reflexivity).
  assert (Hage : 40 <= UserProfile.age user
                 <-> (40 <=? UserProfile.age user) = true)
    by (symmetry; apply Z.leb_le).
  assert (Hnov : UserProfile.training_level user = "novice"
                 <-> (UserProfile.training_level user ==s "novice") = true)
    by (symmetry; apply String.eqb_eq).
  rewrite Hlow, Hage, Hnov. clear Hlow Hage Hnov.
  destruct ((readiness_tier ==s "low") || (acwr_zone ==s "high"));
    [|destruct ((readiness_tier ==s "moderate") || (acwr_zone ==s "elevated"))];
    destruct (40 <=? UserProfile.age user),
      (UserProfile.training_level user ==s "novice"),
      (UserProfile.injury_flag user);
    cbv iota beta;
    cbn [RecoveryProtocol.actions RecoveryProtocol.monitoring app];
    (split; [reflexivity | split; [|split; [|split]]]);
    (etransitivity; [apply in_strings_iff|]);
    vm_compute; tauto.
Qed.

(** ** AICoach: the template decision table *)

Lemma in_set_false (s : string) (l : list string) :
  Py.in_set s l = false -> ~ In s l.
Proof.
  intros H Hin. apply in_strings_iff in Hin. congruence.
Qed.

Ltac set_facts :=
  repeat match goal with
  | H : Py.in_set _ _ = true |- _ =>
      apply in_strings_iff in H; cbn [In] in H
  | H : Py.in_set _ _ = false |- _ =>
      apply in_set_false in H; cbn [In] in H
  | H : (_ ==s _) = true |- _ => apply String.eqb_eq in H
  | H : (_ ==s _) = false |- _ => apply String.eqb_neq in H
  end.

(** X12. With "low" readiness the final template is "Rest" or
    "Recovery", whatever was requested; the same holds with the injury
    flag set unless the request is "VO2_Intervals" or "Double_Threshold";
    and with an ACWR zone of "high" or "elevated" the final template is
    neither "VO2_Intervals" nor "Double_Threshold". *)
Theorem adapt_template_safety (template readiness_tier acwr_zone : string)
    (user : UserProfile.t) :
  exists final notes,
    writes (AICoach._adapt_template template readiness_tier acwr_zone user)
           final notes
    /\ (readiness_tier = "low" -> final = "Rest" \/ final = "Recovery")
    /\ (UserProfile.injury_flag user = true ->
        template <> "VO2_Intervals" -> template <> "Double_Threshold" ->
        final = "Rest" \/ final = "Recovery")
    /\ (acwr_zone = "high" \/ acwr_zone = "elevated" ->
        final <> "VO2_Intervals" /\ final <> "Double_Threshold").
Proof.
  unfold AICoach._adapt_template. cbv zeta.
  destruct (UserProfile.injury_flag user) eqn:E1;
    destruct (Py.in_set template ["Rest"; "Recovery"]) eqn:E2;
    destruct (readiness_tier ==s "low") eqn:E3;
    destruct (Py.in_set acwr_zone ["high"]) eqn:E4;
    destruct (Py.in_set template ["VO2_Intervals"; "Double_Threshold"]) eqn:E5;
    destruct (Py.in_set acwr_zone ["elevated"]) eqn:E6;
    cbn [andb negb]; eexists _, _;
    (split; [writes_steps|]);
    set_facts;
    (split; [intro H | split; [intros H H1 H2 | intros [H|H]; split; intro Hf]]);
    subst; try discriminate; try tauto; try congruence;
    intuition congruence.
Qed.

Lemma adapt_template_safety_witness :
  exists final notes,
    writes (AICoach._adapt_template "Long Run" "high" "optimal" injured_user)
           final notes
    /\ (final = "Rest" \/ final = "Recovery").
Proof.
  destruct (adapt_template_safety "Long Run" "high" "optimal" injured_user)
    as (final & notes & Hw & _ & Hinj & _).
  exists final, notes. split; [exact Hw|].
  apply Hinj; [reflexivity | discriminate | discriminate].
Defined.

(** X14. The injury downgrade does not survive the ACWR rule: with the
    injury flag set, "VO2_Intervals" or "Double_Threshold" requested,
    readiness other than "low" and an ACWR zone of "high" or "elevated",
    the final template is "Threshold", and the adaptations hold the
    injury note followed by the ACWR note. *)
Theorem adapt_template_injury_overridden (template readiness_tier acwr_zone : string)
    (user : UserProfile.t) :
  UserProfile.injury_flag user = true ->
  template = "VO2_Intervals" \/ template = "Double_Threshold" ->
  readiness_tier <> "low" ->
  acwr_zone = "high" \/ acwr_zone = "elevated" ->
  writes (AICoach._adapt_template template readiness_tier acwr_zone user)
    "Threshold"
    ["Injury flag set; downgrading to Recovery.";
     if acwr_zone ==s "high"
     then "High ACWR; downgrading from very hard to Threshold."
     else "Elevated ACWR; shifting to Threshold focus."].
Proof.
  intros Hinj Htpl Hlow Hzone.
  apply String.eqb_neq in Hlow.
  unfold AICoach._adapt_template. cbv zeta. rewrite Hinj, Hlow.
  destruct Htpl as [-> | ->]; destruct Hzone as [-> | ->];
    intro ads; cbv [bind ret append_adaptation]; cbn;
    rewrite <- app_assoc; reflexivity.
Qed.

Lemma adapt_template_injury_overridden_witness :
  writes (AICoach._adapt_template "VO2_Intervals" "high" "high" injured_user)
    "Threshold"
    ["Injury flag set; downgrading to Recovery.";
     "High ACWR; downgrading from very hard to Threshold."].
Proof.
  apply (adapt_template_injury_overridden "VO2_Intervals" "high" "high"
           injured_user).
  - reflexivity.
  - left. reflexivity.
  - discriminate.
  - left. reflexivity.
Defined.

(** X13. Every change that [_adapt_template] makes is recorded and stays
    within a fixed range: if it appends no note the final template is the
    requested one, the final template is always the requested one or one
    of "Recovery", "Rest" and "Threshold", and a requested "Rest" is
    never changed. *)
Theorem adapt_template_documented (template readiness_tier acwr_zone : string)
    (user : UserProfile.t) :
  exists final notes,
    writes (AICoach._adapt_template template readiness_tier acwr_zone user)
           final notes
    /\ (notes = [] -> final = template)
    /\ (final = template \/ final = "Recovery" \/ final = "Rest"
        \/ final = "Threshold")
    /\ (template = "Rest" -> final = "Rest").
Proof.
  unfold AICoach._adapt_template. cbv zeta.
  destruct (UserProfile.injury_flag user) eqn:E1;
    destruct (Py.in_set template ["Rest"; "Recovery"]) eqn:E2;
    destruct (readiness_tier ==s "low") eqn:E3;
    destruct (Py.in_set acwr_zone ["high"]) eqn:E4;
    destruct (Py.in_set template ["VO2_Intervals"; "Double_Threshold"]) eqn:E5;
    destruct (Py.in_set acwr_zone ["elevated"]) eqn:E6;
    cbn [andb negb]; eexists _, _;
    (split; [writes_steps|]);
    set_facts;
    (split; [cbn [app]; intro H; first [discriminate H | reflexivity]
            | split; [tauto | intro H; subst; first [reflexivity | tauto
                                                     | intuition congruence]]]).
Qed.

Lemma adapt_template_documented_witness :
  exists final notes,
    writes (AICoach._adapt_template "Rest" "low" "high" sample_user)
           final notes
    /\ final = "Rest".
Proof.
  destruct (adapt_template_documented "Rest" "low" "high" sample_user)
    as (final & notes & Hw & _ & _ & Hrest).
  exists final, notes. split; [exact Hw|].
  apply Hrest. reflexivity.
Defined.

(** ** AICoach: the session after the two trimming steps *)

(** The session returned is the built one, trimmed by 0.85 or not, then
    trimmed to the availability or not, with its load estimated; each trim
    leaves exactly one note. *)
Lemma build_training_session_shape (template : string)
    (day : MicrocycleDayContext.t) (macrocycle : MacrocycleContext.t)
    (hr_zones : HrZones) (readiness_tier : string) :
  let base := built_session template day macrocycle hr_zones in
  let avail := MicrocycleDayContext.availability_minutes day in
  exists pre fitted notes1 notes2,
    writes (AICoach._build_training_session template day macrocycle hr_zones
              readiness_tier)
      (Session.set_estimated_load
         (AICoach._estimate_load (Session.segments fitted)) fitted)
      (notes1 ++ notes2)%list
    /\ ((pre = base /\ notes1 = []
         /\ (readiness_tier ==s "moderate")
            && negb (Py.in_set template ["Rest"; "Recovery"]) = false)
        \/ (pre = trimmed base (85 # 100) /\ List.length notes1 = 1%nat
            /\ (readiness_tier ==s "moderate")
               && negb (Py.in_set template ["Rest"; "Recovery"]) = true))
    /\ ((fitted = pre /\ notes2 = []
         /\ (avail = 0 \/ Session.duration_minutes pre <= avail
             \/ Session.duration_minutes pre = 0))
        \/ (fitted = trimmed pre
                       (inject_Z avail
                        / inject_Z (Z.max (Session.duration_minutes pre) 1))
            /\ List.length notes2 = 1%nat
            /\ avail <> 0 /\ avail < Session.duration_minutes pre
            /\ Session.duration_minutes pre <> 0)).
Proof.
  intros base avail.
  unfold AICoach._build_training_session. cbv zeta.
  fold (built_session template day macrocycle hr_zones). fold base. fold avail.
  assert (H1 : exists pre notes1,
             writes (if (readiness_tier ==s "moderate")
                        && negb (Py.in_set template ["Rest"; "Recovery"])
                     then AICoach._trim_volume base (85 # 100)
                            "Moderate readiness; trimmed volume by 15%."
                     else ret base) pre notes1
             /\ ((pre = base /\ notes1 = []
                  /\ (readiness_tier ==s "moderate")
                     && negb (Py.in_set template ["Rest"; "Recovery"]) = false)
                 \/ (pre = trimmed base (85 # 100) /\ List.length notes1 = 1%nat
                     /\ (readiness_tier ==s "moderate")
                        && negb (Py.in_set template ["Rest"; "Recovery"])
                        = true))).
  { destruct ((readiness_tier ==s "moderate")
              && negb (Py.in_set template ["Rest"; "Recovery"])).
    - eexists _, _. split; [apply writes_trim_volume|]. right. auto.
    - eexists _, _. split; [apply writes_ret|]. left. auto. }
  destruct H1 as (pre & notes1 & Hw1 & Hpre).
  assert (H2 : exists fitted notes2,
             writes (if negb (avail =? 0)
                        && (avail <? Session.duration_minutes pre)
                     then AICoach._trim_to_availability pre avail
                     else ret pre) fitted notes2
             /\ ((fitted = pre /\ notes2 = []
                  /\ (avail = 0 \/ Session.duration_minutes pre <= avail
                      \/ Session.duration_minutes pre = 0))
                 \/ (fitted = trimmed pre
                                (inject_Z avail
                                 / inject_Z (Z.max (Session.duration_minutes pre) 1))
                     /\ List.length notes2 = 1%nat
                     /\ avail <> 0 /\ avail < Session.duration_minutes pre
                     /\ Session.duration_minutes pre <> 0))).
  { destruct (avail =? 0) eqn:E0; cbn [negb andb].
    - apply Z.eqb_eq in E0.
      eexists _, _. split; [apply writes_ret|]. left. auto.
    - apply Z.eqb_neq in E0.
      destruct (avail <? Session.duration_minutes pre) eqn:E1.
      + apply Z.ltb_lt in E1. unfold AICoach._trim_to_availability.
        destruct (Session.duration_minutes pre =? 0) eqn:E2.
        * apply Z.eqb_eq in E2.
          eexists _, _. split; [apply writes_ret|]. left. auto.
        * apply Z.eqb_neq in E2.
          eexists _, _. split; [apply writes_trim_volume|]. right. auto.
      + apply Z.ltb_ge in E1.
        eexists _, _. split; [apply writes_ret|]. left. auto. }
  destruct H2 as (fitted & notes2 & Hw2 & Hfit).
  exists pre, fitted, notes1, notes2.
  split; [|split; assumption].
  eapply writes_bind; [exact Hw1|]. cbv beta.
  rewrite <- (app_nil_r notes2).
  eapply writes_bind; [exact Hw2|]. apply writes_ret.
Qed.

Lemma built_session_segments_total (template : string)
    (day : MicrocycleDayContext.t) (macrocycle : MacrocycleContext.t)
    (hr_zones : HrZones) :
  segments_total
    (Session.segments (built_session template day macrocycle hr_zones))
  = Session.duration_minutes (built_session template day macrocycle hr_zones).
Proof.
  unfold built_session.
  cbn [Session.set_template Session.segments Session.duration_minutes].
  apply builder_segments_total.
Qed.

(** X15. When neither trimming step applies (readiness is not "moderate"
    or the template is Rest or Recovery, and the availability is 0 or
    holds the built session), [_build_training_session] appends no note
    and returns the builder's session, whose segment durations add up to
    its reported duration. *)
Theorem untrimmed_session_keeps_sum (template : string)
    (day : MicrocycleDayContext.t) (macrocycle : MacrocycleContext.t)
    (hr_zones : HrZones) (readiness_tier : string) :
  readiness_tier <> "moderate" \/ template = "Rest" \/ template = "Recovery" ->
  MicrocycleDayContext.availability_minutes day = 0
  \/ Session.duration_minutes
       (built_session template day macrocycle hr_zones)
     <= MicrocycleDayContext.availability_minutes day ->
  exists session,
    writes (AICoach._build_training_session template day macrocycle hr_zones
              readiness_tier) session []
    /\ Session.segments session
       = Session.segments (built_session template day macrocycle hr_zones)
    /\ segments_total (Session.segments session)
       = Session.duration_minutes session.
Proof.
  intros Htier Havail.
  destruct (build_training_session_shape template day macrocycle hr_zones
              readiness_tier)
    as (pre & fitted & notes1 & notes2 & Hw & Hpre & Hfit).
  assert (Hcond : (readiness_tier ==s "moderate")
                  && negb (Py.in_set template ["Rest"; "Recovery"]) = false).
  { destruct Htier as [H | [-> | ->]].
    - apply String.eqb_neq in H. rewrite H. reflexivity.
    - apply andb_false_r.
    - apply andb_false_r. }
  destruct Hpre as [(-> & -> & _) | (_ & _ & Hc)]; [|congruence].
  destruct Hfit as [(-> & -> & _) | (_ & _ & Hnz & Hlt & _)]; [|lia].
  eexists. split; [exact Hw|].
  cbn [Session.set_estimated_load Session.segments Session.duration_minutes].
  split; [reflexivity | apply built_session_segments_total].
Qed.

Lemma untrimmed_session_keeps_sum_witness :
  exists session,
    writes (AICoach._build_training_session "Threshold" sample_day sample_macro
              (mkHrZones (128, 151) (151, 165) (165, 175) (175, 183)
                 (183, 190)) "high") session []
    /\ segments_total (Session.segments session)
       = Session.duration_minutes session.
Proof.
  destruct (untrimmed_session_keeps_sum "Threshold" sample_day sample_macro
              (mkHrZones (128, 151) (151, 165) (165, 175) (175, 183)
                 (183, 190)) "high")
    as (session & Hw & _ & Hsum).
  - left. discriminate.
  - right. vm_compute. discriminate.
  - exists session. split; assumption.
Defined.

(** ** One-block sessions *)

Lemma round_zero_times (factor : Q) : Py.round (inject_Z 0 * factor) = 0.
Proof.
  rewrite (round_compat _ (inject_Z 0)) by ring. apply round_inject_Z.
Qed.

Lemma one_block_trimmed (session : Session.t) (factor : Q) :
  one_block session -> one_block (trimmed session factor).
Proof.
  intros [[Hs Hd] | (segment & Hs & Hd)].
  - left. unfold trimmed.
    cbn [Session.set_segments Session.set_duration_minutes Session.segments
         Session.duration_minutes].
    rewrite Hs, Hd, round_zero_times. split; reflexivity.
  - right. exists (AICoach.trim_segment factor segment). unfold trimmed.
    cbn [Session.set_segments Session.set_duration_minutes Session.segments
         Session.duration_minutes].
    rewrite Hs. split; [reflexivity|].
    unfold AICoach.trim_segment. cbn [Segment.duration_minutes].
    rewrite Hd. reflexivity.
Qed.

Lemma one_block_segments_total (session : Session.t) :
  one_block session ->
  segments_total (Session.segments session) = Session.duration_minutes session.
Proof.
  intros [[Hs Hd] | (segment & Hs & Hd)]; rewrite Hs; unfold segments_total;
    cbn [map fold_right]; lia.
Qed.

Lemma built_session_one_block (template : string)
    (day : MicrocycleDayContext.t) (macrocycle : MacrocycleContext.t)
    (hr_zones : HrZones) :
  Py.in_set template
    ["Long Run"; "Threshold"; "VO2_Intervals"; "Double_Threshold"] = false ->
  one_block (built_session template day macrocycle hr_zones).
Proof.
  intro H. apply in_set_false in H. cbn [In] in H.
  unfold built_session, AICoach.builder.
  destruct (template ==s "Rest");
    [left; split; reflexivity|].
  assert (Hrec : one_block
            (Session.set_template template
               (AICoach._recovery_run day macrocycle hr_zones))).
  { right. eexists. split; reflexivity. }
  destruct (template ==s "Recovery"); [exact Hrec|].
  destruct (template ==s "Long Run") eqn:E1;
    [apply String.eqb_eq in E1; exfalso; apply H; auto|].
  destruct (template ==s "Threshold") eqn:E2;
    [apply String.eqb_eq in E2; exfalso; apply H; auto|].
  destruct (template ==s "VO2_Intervals") eqn:E3;
    [apply String.eqb_eq in E3; exfalso; apply H; auto|].
  destruct (template ==s "Double_Threshold") eqn:E4;
    [apply String.eqb_eq in E4; exfalso; apply H; auto 6|].
  exact Hrec.
Qed.

(** X16. For every template other than "Long Run", "Threshold",
    "VO2_Intervals" and "Double_Threshold" (that is "Rest", "Recovery"
    and any unknown name, which is built as a recovery run), the session
    returned by [_build_training_session] has segment durations that add
    up to its reported duration, whatever trimming was applied. *)
Theorem one_block_session_keeps_sum (template : string)
    (day : MicrocycleDayContext.t) (macrocycle : MacrocycleContext.t)
    (hr_zones : HrZones) (readiness_tier : string) :
  Py.in_set template
    ["Long Run"; "Threshold"; "VO2_Intervals"; "Double_Threshold"] = false ->
  exists session notes,
    writes (AICoach._build_training_session template day macrocycle hr_zones
              readiness_tier) session notes
    /\ segments_total (Session.segments session)
       = Session.duration_minutes session.
Proof.
  intro Htpl.
  destruct (build_training_session_shape template day macrocycle hr_zones
              readiness_tier)
    as (pre & fitted & notes1 & notes2 & Hw & Hpre & Hfit).
  pose proof (built_session_one_block template day macrocycle hr_zones Htpl)
    as Hbase.
  assert (Hp : one_block pre).
  { destruct Hpre as [(-> & _) | (-> & _)];
      [exact Hbase | apply one_block_trimmed; exact Hbase]. }
  assert (Hf : one_block fitted).
  { destruct Hfit as [(-> & _) | (-> & _)];
      [exact Hp | apply one_block_trimmed; exact Hp]. }
  eexists _, _. split; [exact Hw|].
  cbn [Session.set_estimated_load Session.segments Session.duration_minutes].
  apply one_block_segments_total. exact Hf.
Qed.

Lemma one_block_session_keeps_sum_witness :
  exists session notes,
    writes (AICoach._build_training_session "Tempo" sample_day sample_macro
              (mkHrZones (128, 151) (151, 165) (165, 175) (175, 183)
                 (183, 190)) "moderate") session notes
    /\ segments_total (Session.segments session)
       = Session.duration_minutes session.
Proof.
  apply (one_block_session_keeps_sum "Tempo" sample_day sample_macro
           (mkHrZones (128, 151) (151, 165) (165, 175) (175, 183) (183, 190))
           "moderate").
  reflexivity.
Defined.

(** ** How far a trim can pull the sum from the total *)

Lemma trim_segment_duration (factor : Q) (segment : Segment.t) :
  (0 <= factor)%Q -> 0 <= Segment.duration_minutes segment ->
  Segment.duration_minutes (AICoach.trim_segment factor segment)
  = Py.round (inject_Z (Segment.duration_minutes segment) * factor).
Proof.
  intros Hf Hd. unfold AICoach.trim_segment. cbn [Segment.duration_minutes].
  apply Z.max_r. apply round_ge_Z.
  apply Qmult_le_0_compat; [|exact Hf].
  change 0%Q with (inject_Z 0). rewrite <- Zle_Qle. exact Hd.
Qed.

Lemma trimmed_segments_near (factor : Q) (segments : list Segment.t) :
  (0 <= factor)%Q ->
  Forall (fun segment => 0 <= Segment.duration_minutes segment) segments ->
  (inject_Z (segments_total segments) * factor
   - inject_Z (Z.of_nat (List.length segments)) * (1 # 2)
   <= inject_Z (segments_total (map (AICoach.trim_segment factor) segments))
   /\ inject_Z (segments_total (map (AICoach.trim_segment factor) segments))
      <= inject_Z (segments_total segments) * factor
         + inject_Z (Z.of_nat (List.length segments)) * (1 # 2))%Q.
Proof.
  intros Hf Hall. induction Hall as [|segment rest Hd _ IH].
  - unfold segments_total. cbn [map fold_right List.length Z.of_nat].
    change (inject_Z 0) with 0%Q. split; lra.
  - unfold segments_total in *. cbn [map fold_right List.length].
    rewrite (trim_segment_duration factor segment Hf Hd).
    rewrite Nat2Z.inj_succ. unfold Z.succ.
    rewrite !inject_Z_plus. change (inject_Z 1) with 1%Q.
    destruct (round_within_half
                (inject_Z (Segment.duration_minutes segment) * factor))
      as [H1 H2].
    destruct IH as [IH1 IH2]. split; lra.
Qed.

(** X17. One trim by a non-negative factor keeps the sum of the segment
    durations close to the reported duration: for a session whose segment
    durations are non-negative and add up to its duration, the trimmed
    session's sum differs from its reported duration by at most half a
    minute per segment plus half a minute. *)
Theorem trimmed_sum_error_bound (session : Session.t) (factor : Q) :
  (0 <= factor)%Q ->
  nonnegative session ->
  segments_total (Session.segments session) = Session.duration_minutes session ->
  2 * Z.abs (segments_total (Session.segments (trimmed session factor))
             - Session.duration_minutes (trimmed session factor))
  <= Z.of_nat (List.length (Session.segments session)) + 1.
Proof.
  intros Hf [Hd Hall] Hsum. unfold trimmed.
  cbn [Session.set_segments Session.set_duration_minutes Session.segments
       Session.duration_minutes].
  destruct (trimmed_segments_near factor (Session.segments session) Hf Hall)
    as [H1 H2].
  rewrite Hsum in H1, H2.
  set (total := segments_total
                  (map (AICoach.trim_segment factor) (Session.segments session)))
    in *.
  set (n := Z.of_nat (List.length (Session.segments session))) in *.
  assert (Hr0 : 0 <= Py.round (inject_Z (Session.duration_minutes session) * factor)).
  { apply round_ge_Z. apply Qmult_le_0_compat; [|exact Hf].
    change 0%Q with (inject_Z 0). rewrite <- Zle_Qle. exact Hd. }
  rewrite Z.max_r by exact Hr0.
  destruct (round_within_half
              (inject_Z (Session.duration_minutes session) * factor))
    as [H3 H4].
  set (r := Py.round (inject_Z (Session.duration_minutes session) * factor)) in *.
  assert (Hup : (inject_Z (2 * (total - r)) <= inject_Z (n + 1))%Q).
  { rewrite inject_Z_mult, inject_Z_plus. unfold Z.sub.
    rewrite inject_Z_plus, inject_Z_opp.
    change (inject_Z 2) with 2%Q. change (inject_Z 1) with 1%Q. lra. }
  assert (Hdn : (inject_Z (2 * (r - total)) <= inject_Z (n + 1))%Q).
  { rewrite inject_Z_mult, inject_Z_plus. unfold Z.sub.
    rewrite inject_Z_plus, inject_Z_opp.
    change (inject_Z 2) with 2%Q. change (inject_Z 1) with 1%Q. lra. }
  rewrite <- Zle_Qle in Hup, Hdn. lia.
Qed.

Lemma trimmed_sum_error_bound_witness :
  2 * Z.abs (segments_total
               (Session.segments (trimmed easy_100_session (85 # 100)))
             - Session.duration_minutes (trimmed easy_100_session (85 # 100)))
  <= Z.of_nat (List.length (Session.segments easy_100_session)) + 1.
Proof.
  apply (trimmed_sum_error_bound easy_100_session (85 # 100)).
  - discriminate.
  - split; [discriminate|]. repeat constructor. discriminate.
  - reflexivity.
Defined.

(** ** What the builders can return *)

Lemma scaled_round_le (n a total : Z) :
  0 <= n -> 0 < total -> a < total ->
  Py.round (inject_Z n * (inject_Z a / inject_Z total)) <= n.
Proof.
  intros Hn Ht Ha. apply round_le_Z.
  assert (Qt : (0 < inject_Z total)%Q)
    by (change 0%Q with (inject_Z 0); rewrite <- Zlt_Qlt; exact Ht).
  assert (Qa : (inject_Z a / inject_Z total <= 1)%Q).
  { apply Qle_shift_div_r; [exact Qt|]. rewrite Qmult_1_l.
    rewrite <- Zle_Qle. lia. }
  assert (Qn : (0 <= inject_Z n)%Q)
    by (change 0%Q with (inject_Z 0); rewrite <- Zle_Qle; exact Hn).
  rewrite <- (Qmult_1_r (inject_Z n)) at 2.
  rewrite !(Qmult_comm (inject_Z n)).
  apply Qmult_le_compat_r; assumption.
Qed.

Ltac builder_bounds :=
  cbn -[Z.max Z.min Z.add Z.sub Z.mul Z.ltb Py.round Py.str Qdiv Qmult inject_Z];
  repeat match goal with
  | |- Forall _ (_ :: _) => constructor
  | |- Forall _ [] => constructor
  | |- _ /\ _ => split
  end;
  cbn [Segment.duration_minutes]; try lia.

Lemma recovery_run_range day macrocycle hr_zones :
  Forall (fun segment => 2 <= Segment.duration_minutes segment)
    (Session.segments (AICoach._recovery_run day macrocycle hr_zones))
  /\ 20 <= Session.duration_minutes
             (AICoach._recovery_run day macrocycle hr_zones) <= 40.
Proof. unfold AICoach._recovery_run. builder_bounds. Qed.

Lemma long_run_range day macrocycle hr_zones :
  Forall (fun segment => 2 <= Segment.duration_minutes segment)
    (Session.segments (AICoach._long_run day macrocycle hr_zones))
  /\ 75 <= Session.duration_minutes
             (AICoach._long_run day macrocycle hr_zones) <= 120.
Proof.
  unfold AICoach._long_run. cbv zeta.
  change (0 <? 8) with true. cbv iota.
  match goal with
  | |- context [if ?c then _ else _] => destruct c
  end; builder_bounds.
Qed.

Lemma threshold_run_range day macrocycle hr_zones :
  Forall (fun segment => 2 <= Segment.duration_minutes segment)
    (Session.segments (AICoach._threshold_run day macrocycle hr_zones))
  /\ 44 <= Session.duration_minutes
             (AICoach._threshold_run day macrocycle hr_zones) <= 61.
Proof.
  unfold AICoach._threshold_run. cbv zeta.
  change (Z.max 2 (3 - 1)) with 2.
  destruct (MicrocycleDayContext.availability_minutes day
            <? 15 + (3 * 10 + (3 - 1) * 3) + 10) eqn:E; cbv iota.
  - apply Z.ltb_lt in E.
    pose proof (scaled_round_le 10
                  (MicrocycleDayContext.availability_minutes day)
                  (15 + (3 * 10 + (3 - 1) * 3) + 10)
                  ltac:(lia) ltac:(lia) E) as Hr.
    change (AICoach.range 2) with [0; 1].
    change (AICoach.range (2 - 1)) with [0].
    builder_bounds.
  - change (AICoach.range 3) with [0; 1; 2].
    change (AICoach.range (3 - 1)) with [0; 1].
    builder_bounds.
Qed.

Lemma vo2_intervals_range day macrocycle hr_zones :
  Forall (fun segment => 2 <= Segment.duration_minutes segment)
    (Session.segments (AICoach._vo2_intervals day macrocycle hr_zones))
  /\ (Session.duration_minutes
        (AICoach._vo2_intervals day macrocycle hr_zones) = 43
      \/ Session.duration_minutes
           (AICoach._vo2_intervals day macrocycle hr_zones) = 48).
Proof.
  unfold AICoach._vo2_intervals. cbv zeta.
  change (Z.max 4 (5 - 1)) with 4.
  match goal with
  | |- context [if ?c then _ else _] => destruct c
  end; cbv iota.
  - change (AICoach.range 4) with [0; 1; 2; 3].
    change (AICoach.range (4 - 1)) with [0; 1; 2]. builder_bounds.
  - change (AICoach.range 5) with [0; 1; 2; 3; 4].
    change (AICoach.range (5 - 1)) with [0; 1; 2; 3]. builder_bounds.
Qed.

Lemma double_threshold_range day macrocycle hr_zones :
  Forall (fun segment => 2 <= Segment.duration_minutes segment)
    (Session.segments (AICoach._double_threshold day macrocycle hr_zones))
  /\ 60 <= Session.duration_minutes
             (AICoach._double_threshold day macrocycle hr_zones) <= 85.
Proof.
  unfold AICoach._double_threshold. cbv zeta.
  set (target := Z.min (MicrocycleDayContext.availability_minutes day) 90).
  destruct (target <? 10 + 25 + 10 + 30 + 10) eqn:E; cbv iota.
  - apply Z.ltb_lt in E.
    pose proof (scaled_round_le 25 target (10 + 25 + 10 + 30 + 10)
                  ltac:(lia) ltac:(lia) E) as Ham.
    pose proof (scaled_round_le 30 target (10 + 25 + 10 + 30 + 10)
                  ltac:(lia) ltac:(lia) E) as Hpm.
    pose proof (scaled_round_le 10 target (10 + 25 + 10 + 30 + 10)
                  ltac:(lia) ltac:(lia) E) as Heasy.
    builder_bounds.
  - builder_bounds.
Qed.

(** X18. The builders ignore how short the day is: whatever the
    availability, Rest is 0 minutes, a recovery run (also built for an
    unknown template) lasts 20 to 40 minutes, a long run 75 to 120, a
    threshold session 44 to 61, VO2 intervals 43 or 48, and a double
    threshold 60 to 85; every segment they list lasts at least 2 minutes. *)
Theorem builder_duration_bounds (template : string)
    (day : MicrocycleDayContext.t) (macrocycle : MacrocycleContext.t)
    (hr_zones : HrZones) :
  let session := AICoach.builder template day macrocycle hr_zones in
  let d := Session.duration_minutes session in
  Forall (fun segment => 2 <= Segment.duration_minutes segment)
         (Session.segments session)
  /\ (if template ==s "Rest" then d = 0
      else if template ==s "Recovery" then 20 <= d <= 40
      else if template ==s "Long Run" then 75 <= d <= 120
      else if template ==s "Threshold" then 44 <= d <= 61
      else if template ==s "VO2_Intervals" then d = 43 \/ d = 48
      else if template ==s "Double_Threshold" then 60 <= d <= 85
      else 20 <= d <= 40).
Proof.
  cbv zeta. unfold AICoach.builder.
  destruct (template ==s "Rest"); [split; [constructor | reflexivity]|].
  destruct (template ==s "Recovery"); [apply recovery_run_range|].
  destruct (template ==s "Long Run"); [apply long_run_range|].
  destruct (template ==s "Threshold"); [apply threshold_run_range|].
  destruct (template ==s "VO2_Intervals"); [apply vo2_intervals_range|].
  destruct (template ==s "Double_Threshold");
    [apply double_threshold_range | apply recovery_run_range].
Qed.

Lemma built_session_nonnegative (template : string)
    (day : MicrocycleDayContext.t) (macrocycle : MacrocycleContext.t)
    (hr_zones : HrZones) :
  nonnegative (built_session template day macrocycle hr_zones)
  /\ Session.duration_minutes (built_session template day macrocycle hr_zones)
     <= 120.
Proof.
  unfold nonnegative, built_session.
  cbn [Session.set_template Session.segments Session.duration_minutes].
  assert (Hweak : forall session lo hi,
             Forall (fun segment => 2 <= Segment.duration_minutes segment)
                    (Session.segments session)
             /\ lo <= Session.duration_minutes session <= hi ->
             0 <= lo -> hi <= 120 ->
             (0 <= Session.duration_minutes session
              /\ Forall (fun segment => 0 <= Segment.duration_minutes segment)
                        (Session.segments session))
             /\ Session.duration_minutes session <= 120).
  { intros session lo hi [Hall Hd] Hlo Hhi. repeat split; try lia.
    eapply Forall_impl; [|exact Hall]. cbv beta. intros; lia. }
  unfold AICoach.builder.
  destruct (template ==s "Rest");
    [repeat split; [discriminate | constructor | discriminate]|].
  destruct (template ==s "Recovery");
    [apply (Hweak _ _ _ (recovery_run_range _ _ _)); lia|].
  destruct (template ==s "Long Run");
    [apply (Hweak _ _ _ (long_run_range _ _ _)); lia|].
  destruct (template ==s "Threshold");
    [apply (Hweak _ _ _ (threshold_run_range _ _ _)); lia|].
  destruct (template ==s "VO2_Intervals").
  { destruct (vo2_intervals_range day macrocycle hr_zones) as [Hall Hd].
    apply (Hweak _ 43 48); [split; [exact Hall | lia] | lia | lia]. }
  destruct (template ==s "Double_Threshold");
    [apply (Hweak _ _ _ (double_threshold_range _ _ _)); lia
    |apply (Hweak _ _ _ (recovery_run_range _ _ _)); lia].
Qed.

Lemma trimmed_nonnegative (session : Session.t) (factor : Q) :
  nonnegative (trimmed session factor).
Proof.
  unfold nonnegative, trimmed.
  cbn [Session.set_segments Session.set_duration_minutes Session.segments
       Session.duration_minutes].
  split; [lia|].
  induction (Session.segments session) as [|segment rest IH];
    cbn [map]; constructor; [|exact IH].
  unfold AICoach.trim_segment. cbn [Segment.duration_minutes]. lia.
Qed.

Lemma trimmed_duration_shrinks (session : Session.t) (factor : Q) :
  (factor <= 1)%Q -> 0 <= Session.duration_minutes session ->
  Session.duration_minutes (trimmed session factor)
  <= Session.duration_minutes session.
Proof.
  intros Hf Hd. unfold trimmed.
  cbn [Session.set_segments Session.set_duration_minutes
       Session.duration_minutes].
  apply Z.max_lub; [exact Hd|].
  apply round_le_Z.
  assert (Qd : (0 <= inject_Z (Session.duration_minutes session))%Q)
    by (change 0%Q with (inject_Z 0); rewrite <- Zle_Qle; exact Hd).
  rewrite <- (Qmult_1_r (inject_Z (Session.duration_minutes session))) at 2.
  rewrite !(Qmult_comm (inject_Z (Session.duration_minutes session))).
  apply Qmult_le_compat_r; assumption.
Qed.

(** X19. Whatever the inputs, the session that [_build_training_session]
    returns lasts between 0 and 120 minutes and lists no segment of
    negative duration. *)
Theorem final_session_within_bounds (template : string)
    (day : MicrocycleDayContext.t) (macrocycle : MacrocycleContext.t)
    (hr_zones : HrZones) (readiness_tier : string) :
  exists session notes,
    writes (AICoach._build_training_session template day macrocycle hr_zones
              readiness_tier) session notes
    /\ 0 <= Session.duration_minutes session <= 120
    /\ Forall (fun segment => 0 <= Segment.duration_minutes segment)
              (Session.segments session).
Proof.
  destruct (build_training_session_shape template day macrocycle hr_zones
              readiness_tier)
    as (pre & fitted & notes1 & notes2 & Hw & Hpre & Hfit).
  destruct (built_session_nonnegative template day macrocycle hr_zones)
    as [Hbase Hbase120].
  assert (Hp : nonnegative pre /\ Session.duration_minutes pre <= 120).
  { destruct Hpre as [(-> & _) | (-> & _)]; [split; assumption|].
    split; [apply trimmed_nonnegative|].
    pose proof (trimmed_duration_shrinks
                  (built_session template day macrocycle hr_zones) (85 # 100)
                  ltac:(discriminate) (proj1 Hbase)). lia. }
  destruct Hp as [Hpnn Hp120].
  assert (Hf : nonnegative fitted /\ Session.duration_minutes fitted <= 120).
  { destruct Hfit as [(-> & _) | (-> & _ & Hnz & Hlt & Hd0)];
      [split; assumption|].
    split; [apply trimmed_nonnegative|].
    unfold trimmed.
    cbn [Session.set_segments Session.set_duration_minutes
         Session.duration_minutes].
    destruct Hpnn as [Hd _].
    replace (Z.max (Session.duration_minutes pre) 1)
      with (Session.duration_minutes pre) by lia.
    rewrite (round_compat _ (inject_Z (MicrocycleDayContext.availability_minutes day))).
    - rewrite round_inject_Z. lia.
    - field. intro H0. unfold Qeq in H0. simpl in H0. lia. }
  destruct Hf as [[Hfd Hfs] Hf120].
  eexists _, _. split; [exact Hw|].
  cbn [Session.set_estimated_load Session.segments Session.duration_minutes].
  split; [lia | exact Hfs].
Qed.

Lemma built_session_at_least_20 (template : string)
    (day : MicrocycleDayContext.t) (macrocycle : MacrocycleContext.t)
    (hr_zones : HrZones) :
  template <> "Rest" ->
  20 <= Session.duration_minutes
          (built_session template day macrocycle hr_zones).
Proof.
  intro Hrest. apply String.eqb_neq in Hrest.
  unfold built_session.
  cbn [Session.set_template Session.duration_minutes].
  unfold AICoach.builder. rewrite Hrest.
  pose proof (recovery_run_range day macrocycle hr_zones) as [_ H1].
  pose proof (long_run_range day macrocycle hr_zones) as [_ H2].
  pose proof (threshold_run_range day macrocycle hr_zones) as [_ H3].
  pose proof (vo2_intervals_range day macrocycle hr_zones) as [_ H4].
  pose proof (double_threshold_range day macrocycle hr_zones) as [_ H5].
  destruct (template ==s "Recovery"); [lia|].
  destruct (template ==s "Long Run"); [lia|].
  destruct (template ==s "Threshold"); [lia|].
  destruct (template ==s "VO2_Intervals"); [lia|].
  destruct (template ==s "Double_Threshold"); lia.
Qed.

(** X20. An availability of 0 minutes is not a cap: the availability
    trim is skipped, the session keeps the duration it had after the
    readiness step, and for every template other than "Rest" that is at
    least 17 minutes. *)
Theorem zero_availability_is_not_a_cap (template : string)
    (day : MicrocycleDayContext.t) (macrocycle : MacrocycleContext.t)
    (hr_zones : HrZones) (readiness_tier : string) :
  MicrocycleDayContext.availability_minutes day = 0 ->
  exists session notes,
    writes (AICoach._build_training_session template day macrocycle hr_zones
              readiness_tier) session notes
    /\ Session.duration_minutes session
       = Session.duration_minutes
           (pre_availability_session template day macrocycle hr_zones
              readiness_tier)
    /\ (template <> "Rest" -> 17 <= Session.duration_minutes session).
Proof.
  intro Hzero.
  destruct (build_training_session_shape template day macrocycle hr_zones
              readiness_tier)
    as (pre & fitted & notes1 & notes2 & Hw & Hpre & Hfit).
  assert (Hsame : pre = pre_availability_session template day macrocycle
                          hr_zones readiness_tier).
  { unfold pre_availability_session. cbv zeta.
    fold (built_session template day macrocycle hr_zones).
    destruct Hpre as [(-> & _ & ->) | (-> & _ & ->)]; reflexivity. }
  destruct Hfit as [(-> & _ & _) | (_ & _ & Hnz & _)]; [|congruence].
  eexists _, _. split; [exact Hw|].
  cbn [Session.set_estimated_load Session.duration_minutes].
  split; [rewrite Hsame; reflexivity|].
  intro Hrest.
  pose proof (built_session_at_least_20 template day macrocycle hr_zones Hrest)
    as H20.
  destruct Hpre as [(-> & _) | (-> & _)]; [lia|].
  unfold trimmed.
  cbn [Session.set_segments Session.set_duration_minutes
       Session.duration_minutes].
  apply Z.max_le_iff. right. apply round_ge_Z.
  assert (Q20 : (inject_Z 20 <= inject_Z
                   (Session.duration_minutes
                      (built_session template day macrocycle hr_zones)))%Q)
    by (rewrite <- Zle_Qle; exact H20).
  change (inject_Z 20) with 20%Q in Q20. change (inject_Z 17) with 17%Q. lra.
Qed.

Lemma zero_availability_is_not_a_cap_witness :
  exists session notes,
    writes (AICoach._build_training_session "Long Run"
              (MicrocycleDayContext.mk 6 "Sunday" "Long Run" 0
                 readiness_inputs None sample_load_history None)
              sample_macro
              (mkHrZones (128, 151) (151, 165) (165, 175) (175, 183)
                 (183, 190)) "high") session notes
    /\ 17 <= Session.duration_minutes session.
Proof.
  destruct (zero_availability_is_not_a_cap "Long Run"
              (MicrocycleDayContext.mk 6 "Sunday" "Long Run" 0
                 readiness_inputs None sample_load_history None)
              sample_macro
              (mkHrZones (128, 151) (151, 165) (165, 175) (175, 183)
                 (183, 190)) "high" ltac:(reflexivity))
    as (session & notes & Hw & _ & H17).
  exists session, notes. split; [exact Hw|].
  apply H17. discriminate.
Defined.

(** ** The estimated load *)

Lemma intensity_factor_range (zone : string) :
  (1 <= INTENSITY_FACTORS_get zone /\ INTENSITY_FACTORS_get zone <= 23 # 10)%Q.
Proof.
  unfold INTENSITY_FACTORS_get.
  destruct (zone ==s "Z1"); [split; discriminate|].
  destruct (zone ==s "Z2"); [split; discriminate|].
  destruct (zone ==s "Z3"); [split; discriminate|].
  destruct (zone ==s "Z4"); [split; discriminate|].
  destruct (zone ==s "Z5"); split; discriminate.
Qed.

Lemma load_sum_range (segments : list Segment.t) (start : Q) :
  Forall (fun segment => 0 <= Segment.duration_minutes segment) segments ->
  let total :=
    fold_left
      (fun total segment =>
         (total + inject_Z (Segment.duration_minutes segment)
                  * INTENSITY_FACTORS_get (Segment.target_zone segment))%Q)
      segments start in
  (start + inject_Z (segments_total segments) <= total
   /\ total <= start + (23 # 10) * inject_Z (segments_total segments))%Q.
Proof.
  intro Hall. revert start.
  induction Hall as [|segment rest Hd _ IH]; intro start; cbv zeta.
  - unfold segments_total. cbn [fold_left map fold_right].
    change (inject_Z 0) with 0%Q. split; lra.
  - cbn [fold_left]. specialize (IH
      (start + inject_Z (Segment.duration_minutes segment)
               * INTENSITY_FACTORS_get (Segment.target_zone segment))%Q).
    cbv zeta in IH. destruct IH as [IH1 IH2].
    unfold segments_total in *. cbn [map fold_right].
    rewrite inject_Z_plus.
    destruct (intensity_factor_range (Segment.target_zone segment)) as [F1 F2].
    assert (Qd : (0 <= inject_Z (Segment.duration_minutes segment))%Q)
      by (change 0%Q with (inject_Z 0); rewrite <- Zle_Qle; exact Hd).
    set (d := inject_Z (Segment.duration_minutes segment)) in *.
    set (f := INTENSITY_FACTORS_get (Segment.target_zone segment)) in *.
    assert (M1 : (d * 1 <= d * f)%Q)
      by (rewrite !(Qmult_comm d); apply Qmult_le_compat_r; assumption).
    assert (M2 : (d * f <= d * (23 # 10))%Q)
      by (rewrite !(Qmult_comm d); apply Qmult_le_compat_r; assumption).
    split; lra.
Qed.

(** X21. For segments of non-negative duration the estimated load lies
    between the total minutes (every minute counted at the Z1 factor 1.0)
    and 2.3 times the total minutes (every minute at the Z5 factor), the
    rounding to one decimal included. *)
Theorem estimate_load_range (segments : list Segment.t) :
  Forall (fun segment => 0 <= Segment.duration_minutes segment) segments ->
  (inject_Z (segments_total segments) <= AICoach._estimate_load segments
   /\ AICoach._estimate_load segments
      <= (23 # 10) * inject_Z (segments_total segments))%Q.
Proof.
  intro Hall. unfold AICoach._estimate_load. cbv zeta.
  destruct (load_sum_range segments 0 Hall) as [H1 H2]. cbv zeta in H1, H2.
  set (total := fold_left _ segments 0%Q) in *.
  set (minutes := segments_total segments) in *.
  unfold Py.round_nd. change (10 ^ Z.of_nat 1) with 10.
  assert (Hlo : 10 * minutes <= Py.round (total * inject_Z 10)).
  { apply round_ge_Z. rewrite inject_Z_mult.
    change (inject_Z 10) with 10%Q. lra. }
  assert (Hhi : Py.round (total * inject_Z 10) <= 23 * minutes).
  { apply round_le_Z. rewrite inject_Z_mult.
    change (inject_Z 10) with 10%Q. change (inject_Z 23) with 23%Q. lra. }
  rewrite Zle_Qle in Hlo, Hhi. rewrite inject_Z_mult in Hlo, Hhi.
  change (inject_Z 10) with 10%Q in *. change (inject_Z 23) with 23%Q in Hhi.
  split.
  - apply Qle_shift_div_l; [reflexivity|]. lra.
  - apply Qle_shift_div_r; [reflexivity|]. lra.
Qed.

Lemma estimate_load_range_witness :
  (inject_Z (segments_total (Session.segments easy_100_session))
   <= AICoach._estimate_load (Session.segments easy_100_session))%Q.
Proof.
  apply (estimate_load_range (Session.segments easy_100_session)).
  repeat constructor. discriminate.
Defined.

(** ** The plan as a whole *)

Lemma adapt_template_silent (template readiness_tier acwr_zone final : string)
    (user : UserProfile.t) :
  writes (AICoach._adapt_template template readiness_tier acwr_zone user)
         final [] ->
  final = template.
Proof.
  intro Hw.
  assert (H : exists final' notes',
             writes (AICoach._adapt_template template readiness_tier
                       acwr_zone user) final' notes'
             /\ (notes' = [] -> final' = template)).
  { unfold AICoach._adapt_template. cbv zeta.
    destruct (UserProfile.injury_flag user),
      (Py.in_set template ["Rest"; "Recovery"]),
      (readiness_tier ==s "low"),
      (Py.in_set acwr_zone ["high"]),
      (Py.in_set template ["VO2_Intervals"; "Double_Threshold"]),
      (Py.in_set acwr_zone ["elevated"]);
      cbn [andb negb]; eexists _, _;
      (split; [writes_steps|]);
      cbn [app]; intro H; first [discriminate H | reflexivity]. }
  destruct H as (final' & notes' & Hw' & Hsilent).
  destruct (writes_functional _ _ _ _ _ Hw Hw') as [-> <-].
  apply Hsilent. reflexivity.
Qed.

Lemma safe_zones_silent (user : UserProfile.t) (zones : HrZones) :
  writes (AICoach._safe_zones user) zones [] ->
  Py.truthy (UserProfile.max_hr user) = true
  /\ PhysiologyEngine.heart_rate_zones (UserProfile.max_hr user)
       (UserProfile.resting_hr user) = inr zones.
Proof.
  intro Hw. specialize (Hw []). unfold AICoach._safe_zones in Hw.
  unfold bind, when, lift, ret, append_adaptation in Hw.
  destruct (UserProfile.max_hr user) as [m|] eqn:Em; cbn in Hw.
  - destruct (m =? 0) eqn:E0; cbn in Hw.
    + destruct (PhysiologyEngine.heart_rate_zones (Some 190)
                  (UserProfile.resting_hr user)); [discriminate|].
      discriminate.
    + split; [cbn; rewrite E0; reflexivity|].
      destruct (PhysiologyEngine.heart_rate_zones (Some m)
                  (UserProfile.resting_hr user)); [discriminate|].
      injection Hw as ->. reflexivity.
  - destruct (PhysiologyEngine.heart_rate_zones (Some 190)
                (UserProfile.resting_hr user)); discriminate.
Qed.

(** X22. Nothing is adapted silently: [generate_daily_plan] always
    returns a plan, and when that plan's adaptations list is empty the
    profile supplied a max heart rate, the final template is the
    requested one, and the training session is the builder's session for
    that template with only the template and the estimated load filled
    in. *)
Theorem silent_plan_is_the_request (user : UserProfile.t)
    (macrocycle : MacrocycleContext.t) (day : MicrocycleDayContext.t) :
  exists plan,
    AICoach.generate_daily_plan user macrocycle day = inr plan
    /\ (DailyPlan.adaptations plan = [] ->
        DailyPlan.template_final plan = MicrocycleDayContext.template day
        /\ exists zones,
             PhysiologyEngine.heart_rate_zones (UserProfile.max_hr user)
               (UserProfile.resting_hr user) = inr zones
             /\ DailyPlan.training_session plan
                = Session.set_estimated_load
                    (AICoach._estimate_load
                       (Session.segments
                          (built_session (MicrocycleDayContext.template day)
                             day macrocycle zones)))
                    (built_session (MicrocycleDayContext.template day)
                       day macrocycle zones)).
Proof.
  destruct (generate_daily_plan_runs user macrocycle day)
    as (plan & zones & nz & nt & ns & Hrun & Hz & Ht & Hs & Hads & _).
  exists plan. split; [exact Hrun|].
  intro Hempty. rewrite Hads in Hempty.
  apply app_eq_nil in Hempty. destruct Hempty as [-> Hrest].
  apply app_eq_nil in Hrest. destruct Hrest as [-> ->].
  pose proof (adapt_template_silent _ _ _ _ _ Ht) as Hfinal.
  split; [exact Hfinal|].
  destruct (safe_zones_silent user zones Hz) as [_ Hzones].
  exists zones. split; [exact Hzones|].
  rewrite Hfinal in Hs.
  destruct (build_training_session_shape (MicrocycleDayContext.template day)
              day macrocycle zones (DailyPlan.readiness_tier plan))
    as (pre & fitted & notes1 & notes2 & Hw & Hpre & Hfit).
  destruct (writes_functional _ _ _ _ _ Hs Hw) as [Hsession Hnotes].
  symmetry in Hnotes. apply app_eq_nil in Hnotes. destruct Hnotes as [-> ->].
  destruct Hpre as [(-> & _) | (_ & Hlen & _)]; [|discriminate Hlen].
  destruct Hfit as [(-> & _) | (_ & Hlen & _)]; [|discriminate Hlen].
  exact Hsession.
Qed.

Lemma silent_plan_is_the_request_witness :
  exists plan,
    AICoach.generate_daily_plan sample_user sample_macro sample_day = inr plan
    /\ DailyPlan.template_final plan = "Threshold".
Proof.
  destruct (silent_plan_is_the_request sample_user sample_macro sample_day)
    as (plan & Hrun & Hsilent).
  exists plan. split; [exact Hrun|].
  apply Hsilent.
  assert (Hplan : exists p,
             AICoach.generate_daily_plan sample_user sample_macro sample_day
             = inr p /\ DailyPlan.adaptations p = []).
  { eexists. split; [vm_compute; reflexivity | reflexivity]. }
  destruct Hplan as (p & Hp & Hnil).
  rewrite Hrun in Hp. injection Hp as <-. exact Hnil.
Defined.



(** ** The image helper: named regions *)



(** X25. The four quadrants tile the image: every pixel of an image of
    width [w] and height [h] lies in exactly one of the boxes selected
    for "top-left", "top-right", "bottom-left" and "bottom-right". *)
Theorem quadrants_tile_the_image (w h x y : Z) :
  0 <= x < w -> 0 <= y < h ->
  exists tl tr bl br,
    ExamineRegion.crop_percentage_box w h "top-left" = inr tl
    /\ ExamineRegion.crop_percentage_box w h "top-right" = inr tr
    /\ ExamineRegion.crop_percentage_box w h "bottom-left" = inr bl
    /\ ExamineRegion.crop_percentage_box w h "bottom-right" = inr br
    /\ (in_box x y tl \/ in_box x y tr \/ in_box x y bl \/ in_box x y br)
    /\ ~ (in_box x y tl /\ in_box x y tr)
    /\ ~ (in_box x y tl /\ in_box x y bl)
    /\ ~ (in_box x y tl /\ in_box x y br)
    /\ ~ (in_box x y tr /\ in_box x y bl)
    /\ ~ (in_box x y tr /\ in_box x y br)
    /\ ~ (in_box x y bl /\ in_box x y br).
Proof.
  intros Hx Hy.
  eexists _, _, _, _.
  split; [reflexivity|]. split; [reflexivity|].
  split; [reflexivity|]. split; [reflexivity|].
  unfold in_box.
  generalize (w / 2) (h / 2). intros mx my.
  repeat split; try lia.
Qed.

Lemma quadrants_tile_the_image_witness :
  exists tl,
    ExamineRegion.crop_percentage_box 640 480 "top-left" = inr tl.
Proof.
  destruct (quadrants_tile_the_image 640 480 10 10 ltac:(lia) ltac:(lia))
    as (tl & _ & _ & _ & Htl & _).
  exists tl. exact Htl.
Defined.
